(** * Data Explorer (PyCaret + ydata-profiling): the Streamlit script [app.py]

    The script is re-run from its first line on every widget interaction.
    One run ("interaction cycle") is modelled as a computation in a
    trace-and-exception monad: the trace records, in order, every Streamlit
    call that draws something and every call into an external library
    (pycaret, pandas, ydata-profiling, pdfkit); the result is either a value
    or a raised Python exception.  The external libraries are not part of
    the repository: they are given as an environment of functions that
    either return or raise.  An exception is caught only where the script
    has a handler, and only when it is an instance of [Exception]. *)

From Stdlib Require Import String Ascii List Bool Arith ZArith Lia.
From ExtLib Require Import Structures.Monad.
Import ListNotations.
Import MonadNotation.
Local Open Scope string_scope.
Local Open Scope monad_scope.

(** ** Python values used by the script *)

(** A table cell: pandas columns are heterogeneous. *)
Inductive cell : Type :=
| Num (z : Z)
| Text (s : string)
| Flag (b : bool)
| NaN.

(** [pd.DataFrame]: named columns and rows. *)
Record DataFrame : Type := {
  columns : list string;
  rows : list (list cell)
}.

(** [pd.DataFrame()] *)
Definition pd_DataFrame : DataFrame := {| columns := []; rows := [] |}.

(** [df.empty]: true when one of the two axes has length 0. *)
Definition empty (df : DataFrame) : bool :=
  Nat.eqb (length (columns df)) 0 || Nat.eqb (length (rows df)) 0.

(** [df.head(n)] for [n >= 0]: a new frame with the first [n] rows. *)
Definition head (n : nat) (df : DataFrame) : DataFrame :=
  {| columns := columns df; rows := firstn n (rows df) |}.

(** A raised exception, by what the script's handlers can tell of it:
    [Exception msg] is an instance of [Exception] (parser errors, [OSError],
    [ValueError], [OverflowError], ...); [BaseException msg] is one that is
    not ([KeyboardInterrupt], [SystemExit], ...).  [str e] is what [f"{e}"]
    prints. *)
Inductive exn : Type :=
| Exception (msg : string)
| BaseException (msg : string).

Definition str (e : exn) : string :=
  match e with
  | Exception m => m
  | BaseException m => m
  end.

(** [isinstance(e, Exception)] *)
Definition isinstance_Exception (e : exn) : bool :=
  match e with
  | Exception _ => true
  | BaseException _ => false
  end.

(** Streamlit's [UploadedFile]: the script reads [file.name] and hands the
    object to pandas. *)
Record UploadedFile : Type := {
  name : string;
  content : string
}.

(** [s.endswith(suffix)] *)
Definition endswith (s suffix : string) : bool :=
  Nat.leb (String.length suffix) (String.length s) &&
  String.eqb
    (substring (String.length s - String.length suffix) (String.length suffix) s)
    suffix.

(** [a or b] on strings: the empty string is the only falsy one. *)
Definition py_or (a b : string) : string :=
  if String.eqb a "" then b else a.

(** Truth value of an [Optional[bytes]]: [None] and [b''] are falsy. *)
Definition truthy (b : option string) : bool :=
  match b with
  | Some s => negb (String.eqb s "")
  | None => false
  end.

(** [s.lower()] on ASCII letters. *)
Definition lower_ascii (c : ascii) : ascii :=
  let n := nat_of_ascii c in
  if Nat.leb 65 n && Nat.leb n 90 then ascii_of_nat (n + 32) else c.

Fixpoint lower (s : string) : string :=
  match s with
  | EmptyString => EmptyString
  | String c r => String (lower_ascii c) (lower r)
  end.

(** The object built by [ProfileReport(df, title=, explorative=, minimal=)]:
    ydata-profiling keeps the frame and the configuration, and computes
    from them when the report is rendered or serialised. *)
Record ProfileReport : Type := {
  report_df : DataFrame;
  title : string;
  explorative : bool;
  minimal : bool
}.

(** ** Effects: trace of calls, and exceptions *)

(** What one run does, in program order: the [st.*] calls and the calls
    into the external libraries, each with its arguments. *)
Inductive event : Type :=
| St_set_page_config (page_title layout initial_sidebar_state : string)
| St_markdown (body : string) (unsafe_allow_html : bool)
| St_title (body : string)
| St_header (body : string)
| St_subheader (body : string)
| St_selectbox (label : string) (options : list string)
| St_file_uploader (label : string) (type : list string)
    (accept_multiple_files : bool)
| St_button (label : string)
| St_spinner (text : string)
| St_columns (spec : nat)
| St_success (body : string)
| St_error (body : string)
| St_warning (body : string)
| St_info (body : string)
| St_dataframe (data : DataFrame) (use_container_width : bool)
| St_download_button (label data file_name mime : string)
| Lib_get_data (dataset : string) (profile : bool)
| Lib_read_csv (file : UploadedFile)
| Lib_read_excel (file : UploadedFile)
| Lib_ProfileReport (p : ProfileReport)
| Lib_st_profile_report (p : ProfileReport)
| Lib_to_html (p : ProfileReport)
| Lib_pdfkit_from_string (input : string) (output_path : bool).

(** Result of a Python call: a value, or a raised exception. *)
Inductive outcome (A : Type) : Type :=
| Ret (a : A)
| Raise (e : exn).
Arguments Ret {A} a.
Arguments Raise {A} e.

(** A computation: its outcome and the trace it leaves.  An exception cuts
    the rest of the block short; the trace up to it stays. *)
Definition M (A : Type) : Type := (outcome A * list event)%type.

#[global] Instance Monad_M : Monad M := {
  ret := fun _ a => (Ret a, []);
  bind := fun _ _ m k =>
    match m with
    | (Ret a, t) => let (r, t') := k a in (r, (t ++ t')%list)
    | (Raise e, t) => (Raise e, t)
    end
}.

(** [try: body / except Exception as e: handler]: the handler runs for an
    instance of [Exception]; any other exception goes on to the caller. *)
Definition try_except {A : Type} (body : M A) (handler : exn -> M A) : M A :=
  match body with
  | (Ret a, t) => (Ret a, t)
  | (Raise e, t) =>
      if isinstance_Exception e
      then let (r, t') := handler e in (r, (t ++ t')%list)
      else (Raise e, t)
  end.

(** A Streamlit call that draws text or a widget: it is logged and
    returns. *)
Definition emit (ev : event) : M unit := (Ret tt, [ev]).

(** A library call: logged, then it returns or raises as the library does. *)
Definition call {A : Type} (ev : event) (o : outcome A) : M A := (o, [ev]).

Definition value {A : Type} (m : M A) : outcome A := fst m.
Definition trace {A : Type} (m : M A) : list event := snd m.

(** ** The external libraries

    The imports at the top of the module are taken to succeed; each library
    function either returns or raises.  [st.dataframe] is among them: it
    serialises the frame it is given, and raises on a frame it cannot
    serialise. *)

Record Env : Type := {
  (** [pycaret.datasets.get_data(dataset, profile=...)] *)
  get_data : string -> bool -> outcome DataFrame;
  (** [pd.read_csv(file)] *)
  read_csv : UploadedFile -> outcome DataFrame;
  (** [pd.read_excel(file)] *)
  read_excel : UploadedFile -> outcome DataFrame;
  (** [st.dataframe(data, use_container_width=True)] *)
  st_dataframe : DataFrame -> outcome unit;
  (** the constructor [ProfileReport(...)], which may reject its input *)
  ProfileReport_init : ProfileReport -> outcome unit;
  (** [st_profile_report(profile)] *)
  st_profile_report : ProfileReport -> outcome unit;
  (** [profile.to_html()] *)
  to_html : ProfileReport -> outcome string;
  (** [pdfkit.from_string(input, output_path)] with [output_path=False]:
      the PDF bytes *)
  pdfkit_from_string : string -> bool -> outcome string
}.

(** ** Streamlit widgets

    A widget call draws the widget and returns what the user did with it
    in the browser. *)

(** What the user did in the browser before this run. *)
Record UserInput : Type := {
  pick : nat;                        (* index chosen in the select box *)
  dropped : option UploadedFile;     (* file dropped on the uploader *)
  clicked : bool                     (* the button was pressed *)
}.

(** [st.selectbox(label, options)]: the chosen option, the first one when
    nothing was chosen. *)
Definition st_selectbox (label : string) (options : list string) (pick : nat)
  : M string :=
  emit (St_selectbox label options) ;;
  ret (nth pick options (List.hd "" options)).

(** The uploader's extension filter: a file passes when its name, in lower
    case, ends in a dot followed by one of the listed types. *)
Definition accepts (type : list string) (file : UploadedFile) : bool :=
  existsb (fun t => endswith (lower (name file)) ("." ++ t)) type.

(** [st.file_uploader(label, type=, accept_multiple_files=False)]: the file,
    or [None] when there is none or the filter refuses it.  The browser
    applies the filter before it sends anything: a refused file does not
    reach the script, and the widget returns [None] in the runs that
    follow. *)
Definition st_file_uploader (label : string) (type : list string)
    (dropped : option UploadedFile) : M (option UploadedFile) :=
  emit (St_file_uploader label type false) ;;
  ret (match dropped with
       | Some f => if accepts type f then Some f else None
       | None => None
       end).

(** [st.button(label)] *)
Definition st_button (label : string) (clicked : bool) : M bool :=
  emit (St_button label) ;;
  ret clicked.

(** ** Utility helpers *)

(** [read_uploaded_file(file)] *)
Definition read_uploaded_file (env : Env) (file : UploadedFile) : M DataFrame :=
  try_except
    (df <- (if endswith (name file) ".csv"
            then call (Lib_read_csv file) (read_csv env file)
            else call (Lib_read_excel file) (read_excel env file)) ;;
     ret df)
    (fun e =>
       emit (St_error ("Could not read the file: " ++ str e)) ;;
       ret pd_DataFrame).

(** [convert_html_to_pdf(html_str)] *)
Definition convert_html_to_pdf (env : Env) (html_str : string)
  : M (option string) :=
  try_except
    (pdf_bytes <- call (Lib_pdfkit_from_string html_str false)
                       (pdfkit_from_string env html_str false) ;;
     ret (Some pdf_bytes))
    (fun e =>
       emit (St_warning ("PDF conversion failed: " ++ str e)) ;;
       ret None).

(** ** The script *)

Definition CUSTOM_CSS : string := "
<style>
body {background: #111;}
.sidebar .sidebar-content {background: #222;}
.stButton>button, .stDownloadButton>button {
    background-color:#ff6f61; color:white;
}
</style>
".

Definition builtin_ds : list string :=
  ["juice"; "titanic"; "diabetes"; "winequality-red";
   "iris"; "boston_housing"; "adult"].

Definition none_option : string := "-- none --".

Definition upload_types : list string := ["csv"; "xlsx"].

(** [with st.sidebar: ...]: the two inputs. *)
Definition sidebar (u : UserInput) : M (string * option UploadedFile) :=
  emit (St_header "📂 Select Dataset") ;;
  selected_builtin <-
    st_selectbox "Choose a built‑in dataset" (none_option :: builtin_ds) (pick u) ;;
  emit (St_subheader "Upload your own data") ;;
  uploaded_file <- st_file_uploader "CSV / Excel" upload_types (dropped u) ;;
  ret (selected_builtin, uploaded_file).

(** [if selected_builtin != "-- none --": try: df = get_data(...) ...] *)
Definition load_builtin (env : Env) (selected_builtin : string)
    (df : option DataFrame) : M (option DataFrame) :=
  if negb (String.eqb selected_builtin none_option) then
    try_except
      (d <- call (Lib_get_data selected_builtin false)
                 (get_data env selected_builtin false) ;;
       emit (St_success ("✅ Loaded **" ++ selected_builtin ++ "** dataset.")) ;;
       ret (Some d))
      (fun e =>
         emit (St_error ("Error loading built‑in dataset: " ++ str e)) ;;
         ret df)
  else ret df.

(** [if uploaded_file is not None: df = read_uploaded_file(uploaded_file) ...] *)
Definition load_upload (env : Env) (uploaded_file : option UploadedFile)
    (df : option DataFrame) : M (option DataFrame) :=
  match uploaded_file with
  | Some file =>
      d <- read_uploaded_file env file ;;
      (if negb (empty d) then emit (St_success "✅ Uploaded data loaded.")
       else ret tt) ;;
      ret (Some d)
  | None => ret df
  end.

Definition export_name (selected_builtin suffix : string) : string :=
  py_or selected_builtin "uploaded_data" ++ suffix.

(** The two download buttons. *)
Definition export_buttons (env : Env) (selected_builtin html_str : string)
  : M unit :=
  emit (St_columns 2) ;;
  emit (St_download_button "📥 Download HTML" html_str
          (export_name selected_builtin "_profiling.html") "text/html") ;;
  pdf_bytes <- convert_html_to_pdf env html_str ;;
  match pdf_bytes with
  | Some b =>
      if truthy pdf_bytes then
        emit (St_download_button "📥 Download PDF" b
                (export_name selected_builtin "_profiling.pdf") "application/pdf")
      else ret tt
  | None => ret tt
  end.

(** The body of [if st.button("Generate Profiling Report"):]. *)
Definition generate_report (env : Env) (selected_builtin : string)
    (df : DataFrame) : M unit :=
  emit (St_spinner "Creating the profile…") ;;
  try_except
    (let profile := {| report_df := df; title := "Data Profiling";
                       explorative := true; minimal := true |} in
     call (Lib_ProfileReport profile) (ProfileReport_init env profile) ;;
     call (Lib_st_profile_report profile) (st_profile_report env profile) ;;
     html_str <- call (Lib_to_html profile) (to_html env profile) ;;
     export_buttons env selected_builtin html_str)
    (fun e => emit (St_error ("Profiling failed: " ++ str e))).

Definition no_data : M unit :=
  emit (St_info "Select a built‑in dataset or upload a CSV/Excel file to start.").

(** [if df is not None and not df.empty: ... else: st.info(...)] *)
Definition preview (env : Env) (selected_builtin : string)
    (df : option DataFrame) (clicked : bool) : M unit :=
  match df with
  | Some d =>
      if negb (empty d) then
        emit (St_subheader "📋 Data Preview") ;;
        call (St_dataframe (head 10 d) true) (st_dataframe env (head 10 d)) ;;
        pressed <- st_button "Generate Profiling Report" clicked ;;
        if pressed then generate_report env selected_builtin d else ret tt
      else no_data
  | None => no_data
  end.

(** One run of [app.py]; the value is the module variable [df] at the end. *)
Definition script (env : Env) (u : UserInput) : M (option DataFrame) :=
  emit (St_set_page_config "PyCaret Data Explorer" "wide" "expanded") ;;
  emit (St_markdown CUSTOM_CSS true) ;;
  emit (St_title "🔎 PyCaret Data Explorer") ;;
  inputs <- sidebar u ;;
  let selected_builtin := fst inputs in
  let uploaded_file := snd inputs in
  let df := None in
  df <- load_builtin env selected_builtin df ;;
  df <- load_upload env uploaded_file df ;;
  preview env selected_builtin df (clicked u) ;;
  ret df.

(** What the two sidebar widgets return for a user input. *)
Definition selected_builtin (u : UserInput) : string :=
  nth (pick u) (none_option :: builtin_ds) none_option.

Definition uploaded_file (u : UserInput) : option UploadedFile :=
  match dropped u with
  | Some f => if accepts upload_types f then Some f else None
  | None => None
  end.

(** ** The interactive shell's states, read off a finished run *)

Inductive ShellState : Type :=
| Idle
| Loaded (d : DataFrame)
| Profiled (d : DataFrame).

Definition is_html_export (ev : event) : bool :=
  match ev with
  | St_download_button _ _ _ mime => String.eqb mime "text/html"
  | _ => false
  end.

Definition is_pdf_export (ev : event) : bool :=
  match ev with
  | St_download_button _ _ _ mime => String.eqb mime "application/pdf"
  | _ => false
  end.

Definition is_error (ev : event) : bool :=
  match ev with St_error _ => true | _ => false end.

Definition is_warning (ev : event) : bool :=
  match ev with St_warning _ => true | _ => false end.

(** The active Dataset of a run: the final [df], when the run ended. *)
Definition active_df (r : M (option DataFrame)) : option DataFrame :=
  match value r with
  | Ret df => df
  | Raise _ => None
  end.

(** [Idle]: no dataset, or an empty one (the page shows the hint);
    [Profiled]: the HTML export is on the page; [Loaded] otherwise.
    [None] stands for a run that ended with an uncaught exception. *)
Definition shell_state (r : M (option DataFrame)) : option ShellState :=
  match value r with
  | Ret (Some d) =>
      Some (if empty d then Idle
            else if existsb is_html_export (trace r) then Profiled d
            else Loaded d)
  | Ret None => Some Idle
  | Raise _ => None
  end.

(** ** Vocabulary of the statements *)

Definition is_raise {A : Type} (o : outcome A) : bool :=
  match o with Raise _ => true | Ret _ => false end.

(** The call raised an exception that [except Exception] does not catch. *)
Definition interrupted {A : Type} (o : outcome A) : bool :=
  match o with
  | Raise e => negb (isinstance_Exception e)
  | Ret _ => false
  end.

(** [pd.read_csv] or [pd.read_excel], whichever the name selects: what
    pandas answers for an uploaded file. *)
Definition pandas_read (env : Env) (file : UploadedFile) : outcome DataFrame :=
  if endswith (name file) ".csv" then read_csv env file else read_excel env file.

(** The call that reaches pandas for an uploaded file. *)
Definition pandas_call (file : UploadedFile) : event :=
  if endswith (name file) ".csv" then Lib_read_csv file else Lib_read_excel file.

(** Everything drawn before the data is loaded. *)
Definition page_header : list event :=
  [St_set_page_config "PyCaret Data Explorer" "wide" "expanded";
   St_markdown CUSTOM_CSS true;
   St_title "🔎 PyCaret Data Explorer";
   St_header "📂 Select Dataset";
   St_selectbox "Choose a built‑in dataset" (none_option :: builtin_ds);
   St_subheader "Upload your own data";
   St_file_uploader "CSV / Excel" upload_types false].

(** The report object the script builds for a frame. *)
Definition profile_of (df : DataFrame) : ProfileReport :=
  {| report_df := df; title := "Data Profiling";
     explorative := true; minimal := true |}.

(** Outcome of the profiling steps up to the HTML string: constructing the
    report, rendering it in the page, serialising it. *)
Definition report_html (env : Env) (df : DataFrame) : outcome string :=
  match ProfileReport_init env (profile_of df) with
  | Raise e => Raise e
  | Ret _ =>
      match st_profile_report env (profile_of df) with
      | Raise e => Raise e
      | Ret _ => to_html env (profile_of df)
      end
  end.

(** The library calls those steps make, up to the first that raises. *)
Definition profiling_calls (env : Env) (df : DataFrame) : list event :=
  Lib_ProfileReport (profile_of df) ::
  match ProfileReport_init env (profile_of df) with
  | Raise _ => []
  | Ret _ =>
      Lib_st_profile_report (profile_of df) ::
      match st_profile_report env (profile_of df) with
      | Raise _ => []
      | Ret _ => [Lib_to_html (profile_of df)]
      end
  end.

Definition html_button (sel html_str : string) : event :=
  St_download_button "📥 Download HTML" html_str
    (export_name sel "_profiling.html") "text/html".

Definition pdf_button (sel pdf_bytes : string) : event :=
  St_download_button "📥 Download PDF" pdf_bytes
    (export_name sel "_profiling.pdf") "application/pdf".

(** The two loading blocks in sequence, from the initial [df = None]: its
    value is [df] as the preview guard finds it. *)
Definition load_data (env : Env) (u : UserInput) : M (option DataFrame) :=
  df <- load_builtin env (selected_builtin u) None ;;
  load_upload env (uploaded_file u) df.

(** The guard of the preview: [df is not None and not df.empty]. *)
Definition has_data (df : option DataFrame) : bool :=
  match df with
  | Some d => negb (empty d)
  | None => false
  end.

(** The run gets past [st.dataframe], to the button: there is data and
    the call on its first ten rows returns. *)
Definition button_reached (env : Env) (df : option DataFrame) : bool :=
  match df with
  | Some d => negb (empty d) && negb (is_raise (st_dataframe env (head 10 d)))
  | None => false
  end.

(** The texts of the messages. *)
Definition builtin_error (e : exn) : string :=
  "Error loading built‑in dataset: " ++ str e.

Definition upload_error (e : exn) : string :=
  "Could not read the file: " ++ str e.

Definition profiling_error (e : exn) : string :=
  "Profiling failed: " ++ str e.

Definition pdf_warning (e : exn) : string :=
  "PDF conversion failed: " ++ str e.

Definition builtin_success (sel : string) : string :=
  "✅ Loaded **" ++ sel ++ "** dataset.".

Definition upload_success : string := "✅ Uploaded data loaded.".

Definition start_hint : string :=
  "Select a built‑in dataset or upload a CSV/Excel file to start.".

(** *** Kinds of events *)

(** Events of the page header and of the two loading blocks. *)
Definition is_setup_event (ev : event) : bool :=
  match ev with
  | St_set_page_config _ _ _ | St_markdown _ _ | St_title _ | St_header _
  | St_subheader _ | St_selectbox _ _ | St_file_uploader _ _ _
  | St_success _ | St_error _
  | Lib_get_data _ _ | Lib_read_csv _ | Lib_read_excel _ => true
  | _ => false
  end.

(** Events of the built-in block and of the upload block. *)
Definition is_builtin_event (ev : event) : bool :=
  match ev with
  | Lib_get_data _ _ | St_success _ | St_error _ => true
  | _ => false
  end.

Definition is_upload_event (ev : event) : bool :=
  match ev with
  | Lib_read_csv _ | Lib_read_excel _ | St_success _ | St_error _ => true
  | _ => false
  end.

(** The report object behind a call into ydata-profiling. *)
Definition profile_call (ev : event) : option ProfileReport :=
  match ev with
  | Lib_ProfileReport p | Lib_st_profile_report p | Lib_to_html p => Some p
  | _ => None
  end.

(** Events of the report block. *)
Definition is_report_event (ev : event) : bool :=
  match ev with
  | St_spinner _ | St_columns _ | St_download_button _ _ _ _
  | St_warning _ | St_error _ | Lib_pdfkit_from_string _ _ => true
  | Lib_ProfileReport _ | Lib_st_profile_report _ | Lib_to_html _ => true
  | _ => false
  end.

(** Events of the preview block. *)
Definition is_preview_event (ev : event) : bool :=
  match ev with
  | St_subheader _ | St_dataframe _ _ | St_button _ | St_info _ => true
  | _ => is_report_event ev
  end.

(** Anything the report block does apart from [st.error]: the spinner, the
    calls into ydata-profiling and pdfkit, the columns, the download
    buttons, the warning. *)
Definition is_report_activity (ev : event) : bool :=
  match ev with
  | St_spinner _ | St_columns _ | St_download_button _ _ _ _ | St_warning _
  | Lib_ProfileReport _ | Lib_st_profile_report _ | Lib_to_html _
  | Lib_pdfkit_from_string _ _ => true
  | _ => false
  end.

Definition is_pandas_call (ev : event) : bool :=
  match ev with
  | Lib_read_csv _ | Lib_read_excel _ => true
  | _ => false
  end.

Definition is_page_config (ev : event) : bool :=
  match ev with St_set_page_config _ _ _ => true | _ => false end.

Definition is_dataframe (ev : event) : bool :=
  match ev with St_dataframe _ _ => true | _ => false end.

Definition is_info (ev : event) : bool :=
  match ev with St_info _ => true | _ => false end.

Definition is_button (ev : event) : bool :=
  match ev with St_button _ => true | _ => false end.

Definition is_get_data (ev : event) : bool :=
  match ev with Lib_get_data _ _ => true | _ => false end.

(** *** Failed actions and the shell's state *)

(** The built-in load of this run raised. *)
Definition builtin_load_fails (env : Env) (u : UserInput) : bool :=
  negb (String.eqb (selected_builtin u) none_option) &&
  is_raise (get_data env (selected_builtin u) false).

(** Parsing the uploaded file of this run raised. *)
Definition upload_fails (env : Env) (u : UserInput) : bool :=
  match uploaded_file u with
  | Some f => is_raise (pandas_read env f)
  | None => false
  end.

(** The report was asked for in this run and could not be produced. *)
Definition profiling_fails (env : Env) (u : UserInput) : bool :=
  match value (load_data env u) with
  | Ret (Some d) => negb (empty d) && clicked u && is_raise (report_html env d)
  | _ => false
  end.

Definition action_fails (env : Env) (u : UserInput) : bool :=
  builtin_load_fails env u || upload_fails env u || profiling_fails env u.

(** The statement about failed transitions, for one step of a session: the
    run [next] follows the run [prior]; if an action of [next] fails, the
    shell is in the state [prior] left it in. *)
Definition keeps_prior_state (env : Env) (prior next : UserInput) : Prop :=
  action_fails env next = true ->
  shell_state (script env next) = shell_state (script env prior).

(** The table of the first ten rows of [d] is on the page: [st.dataframe]
    was called on it, and returned. *)
Definition table_displayed (env : Env) (d : DataFrame) (r : M unit) : Prop :=
  In (St_dataframe (head 10 d) true) (trace r) /\
  st_dataframe env (head 10 d) = Ret tt.

(** The statement that the preview block displays every non-empty
    dataset. *)
Definition preview_displays (env : Env) (sel : string) (d : DataFrame)
    (pressed : bool) : Prop :=
  empty d = false -> table_displayed env d (preview env sel (Some d) pressed).

(** The statement that [read_uploaded_file] returns a frame whatever
    pandas does. *)
Definition returns_a_frame (env : Env) (file : UploadedFile) : Prop :=
  exists d, value (read_uploaded_file env file) = Ret d.

(** ** Concrete data for examples *)

Module Demo.

Definition iris_row (i : Z) : list cell :=
  [Num (50 + i); Num (30 + i); Text "setosa"].

(** Twelve rows, so that the preview cuts it. *)
Definition iris_df : DataFrame :=
  {| columns := ["sepal_length"; "sepal_width"; "species"];
     rows := map iris_row [0; 1; 2; 3; 4; 5; 6; 7; 8; 9; 10; 11]%Z |}.

Definition small_df : DataFrame :=
  {| columns := ["x"; "y"]; rows := [[Num 1; Num 2]; [Num 3; NaN]] |}.

Definition good_csv : UploadedFile := {| name := "points.csv"; content := "x,y
1,2
3," |}.

(** A third line with more fields than the header: the parser gives up. *)
Definition bad_csv : UploadedFile :=
  {| name := "notes.csv"; content := "a,b
1,2
3,4,5" |}.

(** A file with a header line and no data line. *)
Definition header_only_csv : UploadedFile :=
  {| name := "empty.csv"; content := "a,b" |}.

Definition header_only_df : DataFrame :=
  {| columns := ["a"; "b"]; rows := [] |}.

(** Text files that carry an Excel extension. *)
Definition renamed_xlsx : UploadedFile :=
  {| name := "points.xlsx"; content := content good_csv |}.

Definition old_xls : UploadedFile :=
  {| name := "points.xls"; content := content good_csv |}.

(** A CSV file whose name is in capitals. *)
Definition capitals_csv : UploadedFile :=
  {| name := "POINTS.CSV"; content := content good_csv |}.

Definition html_doc : string := "<!doctype html><html>report</html>".

(** A frame with an integer beyond 64 bits, as pandas builds from a
    workbook cell that holds one. *)
Definition big_df : DataFrame :=
  {| columns := ["id"; "amount"];
     rows := [[Num 1; Num 18446744073709551616]] |}.

Definition fits_int64 (c : cell) : bool :=
  match c with
  | Num z => (Z.leb (-9223372036854775808) z && Z.leb z 9223372036854775807)%bool
  | _ => true
  end.

(** A machine where [iris] can be fetched, the other samples cannot,
    integers beyond 64 bits cannot be serialised for the browser, and
    wkhtmltopdf is not installed. *)
Definition env : Env :=
  {| get_data := fun dataset _ =>
       if String.eqb dataset "iris" then Ret iris_df
       else Raise (Exception "HTTP Error 404: Not Found");
     read_csv := fun file =>
       if String.eqb (content file) (content good_csv) then Ret small_df
       else if String.eqb (content file) (content header_only_csv)
       then Ret header_only_df
       else if String.eqb (content file) (content bad_csv)
       then Raise (Exception
         "Error tokenizing data. C error: Expected 2 fields in line 3, saw 3")
       else Raise (Exception "No columns to parse from file");
     read_excel := fun _ =>
       Raise (Exception
         "Excel file format cannot be determined, you must specify an engine manually.");
     st_dataframe := fun d =>
       if forallb (forallb fits_int64) (rows d) then Ret tt
       else Raise (Exception "Python int too large to convert to C long");
     ProfileReport_init := fun _ => Ret tt;
     st_profile_report := fun _ => Ret tt;
     to_html := fun _ => Ret html_doc;
     pdfkit_from_string := fun _ _ =>
       Raise (Exception "No wkhtmltopdf executable found") |}.

(** The same machine with wkhtmltopdf installed. *)
Definition env_pdf : Env :=
  {| get_data := get_data env;
     read_csv := read_csv env;
     read_excel := read_excel env;
     st_dataframe := st_dataframe env;
     ProfileReport_init := ProfileReport_init env;
     st_profile_report := st_profile_report env;
     to_html := to_html env;
     pdfkit_from_string := fun html _ => Ret ("%PDF-1.4 " ++ html) |}.

(** A machine whose wkhtmltopdf produces no output and no error. *)
Definition env_blank_pdf : Env :=
  {| get_data := get_data env;
     read_csv := read_csv env;
     read_excel := read_excel env;
     st_dataframe := st_dataframe env;
     ProfileReport_init := ProfileReport_init env;
     st_profile_report := st_profile_report env;
     to_html := to_html env;
     pdfkit_from_string := fun _ _ => Ret "" |}.

(** A machine on which the report cannot be constructed. *)
Definition env_no_report : Env :=
  {| get_data := get_data env;
     read_csv := read_csv env;
     read_excel := read_excel env;
     st_dataframe := st_dataframe env;
     ProfileReport_init := fun _ => Raise (Exception "DataFrame has no usable column");
     st_profile_report := st_profile_report env;
     to_html := to_html env;
     pdfkit_from_string := pdfkit_from_string env |}.

(** The server is stopped with Ctrl-C while pandas parses. *)
Definition env_interrupted : Env :=
  {| get_data := get_data env;
     read_csv := fun _ => Raise (BaseException "KeyboardInterrupt");
     read_excel := read_excel env;
     st_dataframe := st_dataframe env;
     ProfileReport_init := ProfileReport_init env;
     st_profile_report := st_profile_report env;
     to_html := to_html env;
     pdfkit_from_string := pdfkit_from_string env |}.

(** [iris] chosen (index 5 of the select box), nothing uploaded. *)
Definition u_iris : UserInput :=
  {| pick := 5; dropped := None; clicked := false |}.

(** Then the user uploads a file that does not parse. *)
Definition u_iris_bad_upload : UserInput :=
  {| pick := 5; dropped := Some bad_csv; clicked := false |}.

Definition u_iris_report : UserInput :=
  {| pick := 5; dropped := None; clicked := true |}.

(** No built-in chosen, a good file uploaded, the button pressed. *)
Definition u_upload_report : UserInput :=
  {| pick := 0; dropped := Some good_csv; clicked := true |}.

(** [adult] chosen (index 7): the fetch fails on this machine. *)
Definition u_adult : UserInput :=
  {| pick := 7; dropped := None; clicked := false |}.

(** [iris] chosen and a good file uploaded in the same run. *)
Definition u_both : UserInput :=
  {| pick := 5; dropped := Some good_csv; clicked := false |}.

(** [iris] chosen, a good file uploaded, the button pressed. *)
Definition u_both_report : UserInput :=
  {| pick := 5; dropped := Some good_csv; clicked := true |}.

(** No built-in chosen, an old Excel workbook dropped on the uploader. *)
Definition u_old_xls : UserInput :=
  {| pick := 0; dropped := Some old_xls; clicked := false |}.

(** [iris] chosen, a header-only file uploaded. *)
Definition u_iris_header_only : UserInput :=
  {| pick := 5; dropped := Some header_only_csv; clicked := false |}.

End Demo.

(** ** How a run decomposes *)

Lemma sidebar_run (u : UserInput) :
  sidebar u =
  (Ret (selected_builtin u, uploaded_file u),
   [St_header "📂 Select Dataset";
    St_selectbox "Choose a built‑in dataset" (none_option :: builtin_ds);
    St_subheader "Upload your own data";
    St_file_uploader "CSV / Excel" upload_types false]).
Proof. reflexivity. Qed.

Lemma read_uploaded_file_run (env : Env) (file : UploadedFile) :
  read_uploaded_file env file =
  match pandas_read env file with
  | Ret d => (Ret d, [pandas_call file])
  | Raise e =>
      if isinstance_Exception e
      then (Ret pd_DataFrame,
            [pandas_call file; St_error ("Could not read the file: " ++ str e)])
      else (Raise e, [pandas_call file])
  end.
Proof.
  unfold read_uploaded_file, pandas_read, pandas_call.
  destruct (endswith (name file) ".csv").
  - destruct (read_csv env file) as [d|[m|m]]; reflexivity.
  - destruct (read_excel env file) as [d|[m|m]]; reflexivity.
Qed.

Lemma convert_html_to_pdf_run (env : Env) (html_str : string) :
  convert_html_to_pdf env html_str =
  match pdfkit_from_string env html_str false with
  | Ret b => (Ret (Some b), [Lib_pdfkit_from_string html_str false])
  | Raise e =>
      if isinstance_Exception e
      then (Ret None,
            [Lib_pdfkit_from_string html_str false;
             St_warning ("PDF conversion failed: " ++ str e)])
      else (Raise e, [Lib_pdfkit_from_string html_str false])
  end.
Proof.
  unfold convert_html_to_pdf.
  destruct (pdfkit_from_string env html_str false) as [b|[m|m]]; reflexivity.
Qed.

Lemma load_builtin_run (env : Env) (sel : string) (df : option DataFrame) :
  load_builtin env sel df =
  if String.eqb sel none_option then (Ret df, [])
  else match get_data env sel false with
       | Ret d =>
           (Ret (Some d),
            [Lib_get_data sel false;
             St_success ("✅ Loaded **" ++ sel ++ "** dataset.")])
       | Raise e =>
           if isinstance_Exception e
           then (Ret df,
                 [Lib_get_data sel false;
                  St_error ("Error loading built‑in dataset: " ++ str e)])
           else (Raise e, [Lib_get_data sel false])
       end.
Proof.
  unfold load_builtin.
  destruct (String.eqb sel none_option); [reflexivity|].
  destruct (get_data env sel false) as [d|[m|m]]; reflexivity.
Qed.

Lemma load_upload_run (env : Env) (file : option UploadedFile)
    (df : option DataFrame) :
  load_upload env file df =
  match file with
  | None => (Ret df, [])
  | Some f =>
      match pandas_read env f with
      | Ret d =>
          (Ret (Some d),
           pandas_call f ::
           (if empty d then [] else [St_success "✅ Uploaded data loaded."]))
      | Raise e =>
          if isinstance_Exception e
          then (Ret (Some pd_DataFrame),
                [pandas_call f; St_error ("Could not read the file: " ++ str e)])
          else (Raise e, [pandas_call f])
      end
  end.
Proof.
  unfold load_upload. destruct file as [f|]; [|reflexivity].
  rewrite read_uploaded_file_run.
  destruct (pandas_read env f) as [d|[m|m]]; try reflexivity.
  cbn. destruct (empty d); reflexivity.
Qed.

Lemma export_buttons_run (env : Env) (sel html_str : string) :
  export_buttons env sel html_str =
  match pdfkit_from_string env html_str false with
  | Ret b =>
      (Ret tt,
       St_columns 2 :: html_button sel html_str ::
       Lib_pdfkit_from_string html_str false ::
       (if String.eqb b "" then [] else [pdf_button sel b]))
  | Raise e =>
      if isinstance_Exception e
      then (Ret tt,
            [St_columns 2; html_button sel html_str;
             Lib_pdfkit_from_string html_str false;
             St_warning (pdf_warning e)])
      else (Raise e,
            [St_columns 2; html_button sel html_str;
             Lib_pdfkit_from_string html_str false])
  end.
Proof.
  unfold export_buttons. rewrite convert_html_to_pdf_run.
  destruct (pdfkit_from_string env html_str false) as [b|[m|m]];
    try reflexivity.
  cbn. destruct (String.eqb b ""); reflexivity.
Qed.

(** The report block: what it returns, and what it does. *)
Lemma generate_report_run (env : Env) (sel : string) (d : DataFrame) :
  generate_report env sel d =
  (match report_html env d with
   | Ret html => value (export_buttons env sel html)
   | Raise e => if isinstance_Exception e then Ret tt else Raise e
   end,
   St_spinner "Creating the profile…" ::
   (profiling_calls env d ++
    match report_html env d with
    | Ret html => trace (export_buttons env sel html)
    | Raise e =>
        if isinstance_Exception e then [St_error (profiling_error e)] else []
    end)%list).
Proof.
  unfold generate_report, report_html, profiling_calls.
  fold (profile_of d).
  destruct (ProfileReport_init env (profile_of d)) as [[]|[m|m]];
    try reflexivity.
  destruct (st_profile_report env (profile_of d)) as [[]|[m|m]];
    try reflexivity.
  destruct (to_html env (profile_of d)) as [h|[m|m]]; try reflexivity.
  cbn -[export_buttons]. rewrite export_buttons_run.
  destruct (pdfkit_from_string env h false) as [b|[m|m]]; reflexivity.
Qed.

Lemma generate_report_value (env : Env) (sel : string) (d : DataFrame) :
  value (generate_report env sel d) =
  match report_html env d with
  | Ret html =>
      match pdfkit_from_string env html false with
      | Ret _ => Ret tt
      | Raise e => if isinstance_Exception e then Ret tt else Raise e
      end
  | Raise e => if isinstance_Exception e then Ret tt else Raise e
  end.
Proof.
  rewrite generate_report_run. unfold value at 1. cbn [fst].
  destruct (report_html env d) as [h|e]; [|reflexivity].
  rewrite export_buttons_run.
  destruct (pdfkit_from_string env h false) as [b|[m|m]]; reflexivity.
Qed.

(** The trace of the report block, case by case. *)
Lemma generate_report_trace (env : Env) (sel : string) (d : DataFrame) :
  trace (generate_report env sel d) =
  St_spinner "Creating the profile…" ::
  (profiling_calls env d ++
   match report_html env d with
   | Ret html =>
       St_columns 2 :: html_button sel html ::
       Lib_pdfkit_from_string html false ::
       match pdfkit_from_string env html false with
       | Ret b => if String.eqb b "" then [] else [pdf_button sel b]
       | Raise e =>
           if isinstance_Exception e then [St_warning (pdf_warning e)] else []
       end
   | Raise e =>
       if isinstance_Exception e then [St_error (profiling_error e)] else []
   end)%list.
Proof.
  rewrite generate_report_run. unfold trace at 1. cbn [snd].
  destruct (report_html env d) as [h|e]; [|reflexivity].
  rewrite export_buttons_run.
  destruct (pdfkit_from_string env h false) as [b|[m|m]]; reflexivity.
Qed.

(** The preview block: [st.dataframe] is outside any handler, so an
    exception it raises ends the block. *)
Lemma preview_value (env : Env) (sel : string) (df : option DataFrame)
    (pressed : bool) :
  value (preview env sel df pressed) =
  match df with
  | Some d =>
      if empty d then Ret tt
      else match st_dataframe env (head 10 d) with
           | Ret _ => if pressed then value (generate_report env sel d) else Ret tt
           | Raise e => Raise e
           end
  | None => Ret tt
  end.
Proof.
  unfold preview. destruct df as [d|]; [|reflexivity].
  destruct (empty d); [reflexivity|].
  destruct (st_dataframe env (head 10 d)) as [[]|e]; [|reflexivity].
  destruct pressed; [|reflexivity].
  cbn -[generate_report].
  destruct (generate_report env sel d) as [[[]|e] t]; reflexivity.
Qed.

Lemma preview_trace (env : Env) (sel : string) (df : option DataFrame)
    (pressed : bool) :
  trace (preview env sel df pressed) =
  match df with
  | Some d =>
      if empty d then [St_info start_hint]
      else St_subheader "📋 Data Preview" ::
           St_dataframe (head 10 d) true ::
           match st_dataframe env (head 10 d) with
           | Ret _ =>
               St_button "Generate Profiling Report" ::
               (if pressed then trace (generate_report env sel d) else [])
           | Raise _ => []
           end
  | None => [St_info start_hint]
  end.
Proof.
  unfold preview. destruct df as [d|]; [|reflexivity].
  destruct (empty d); [reflexivity|].
  destruct (st_dataframe env (head 10 d)) as [[]|e]; [|reflexivity].
  destruct pressed; [|reflexivity].
  cbn -[generate_report].
  destruct (generate_report env sel d) as [[[]|e] t]; reflexivity.
Qed.

(** The two loading blocks in sequence. *)
Lemma load_data_run (env : Env) (u : UserInput) :
  load_data env u =
  match value (load_builtin env (selected_builtin u) None) with
  | Ret df0 =>
      (value (load_upload env (uploaded_file u) df0),
       (trace (load_builtin env (selected_builtin u) None) ++
        trace (load_upload env (uploaded_file u) df0))%list)
  | Raise e => (Raise e, trace (load_builtin env (selected_builtin u) None))
  end.
Proof.
  unfold load_data.
  destruct (load_builtin env (selected_builtin u) None) as [[df0|e] t1];
    [|reflexivity].
  cbn -[load_upload].
  destruct (load_upload env (uploaded_file u) df0) as [r t2]. reflexivity.
Qed.

(** A run: the page header, the loading blocks, and, when they return,
    the preview block; an exception that leaves a block ends the run. *)
Lemma script_run (env : Env) (u : UserInput) :
  script env u =
  match value (load_data env u) with
  | Ret df =>
      (match value (preview env (selected_builtin u) df (clicked u)) with
       | Ret _ => Ret df
       | Raise e => Raise e
       end,
       (page_header ++ trace (load_data env u) ++
        trace (preview env (selected_builtin u) df (clicked u)))%list)
  | Raise e => (Raise e, (page_header ++ trace (load_data env u))%list)
  end.
Proof.
  rewrite load_data_run. unfold script. rewrite sidebar_run.
  cbn -[selected_builtin uploaded_file load_builtin load_upload preview
        page_header].
  destruct (load_builtin env (selected_builtin u) None) as [[df0|e] t1];
    [|reflexivity].
  cbn -[selected_builtin uploaded_file load_upload preview page_header].
  destruct (load_upload env (uploaded_file u) df0) as [[df|e] t2];
    [|reflexivity].
  cbn -[selected_builtin preview page_header].
  destruct (preview env (selected_builtin u) df (clicked u)) as [[[]|e] t3];
    cbn -[page_header]; rewrite ?app_nil_r, <- ?app_assoc; reflexivity.
Qed.

Lemma value_script (env : Env) (u : UserInput) :
  value (script env u) =
  match value (load_data env u) with
  | Ret df =>
      match value (preview env (selected_builtin u) df (clicked u)) with
      | Ret _ => Ret df
      | Raise e => Raise e
      end
  | Raise e => Raise e
  end.
Proof.
  rewrite script_run. destruct (value (load_data env u)); reflexivity.
Qed.

Lemma trace_script (env : Env) (u : UserInput) :
  trace (script env u) =
  (page_header ++ trace (load_data env u) ++
   match value (load_data env u) with
   | Ret df => trace (preview env (selected_builtin u) df (clicked u))
   | Raise _ => []
   end)%list.
Proof.
  rewrite script_run. destruct (value (load_data env u));
    unfold trace at 1; cbn [snd]; rewrite ?app_nil_r; reflexivity.
Qed.

Lemma value_load_data (env : Env) (u : UserInput) :
  value (load_data env u) =
  match value (load_builtin env (selected_builtin u) None) with
  | Ret df0 => value (load_upload env (uploaded_file u) df0)
  | Raise e => Raise e
  end.
Proof.
  rewrite load_data_run.
  destruct (value (load_builtin env (selected_builtin u) None)); reflexivity.
Qed.

Lemma trace_load_data (env : Env) (u : UserInput) :
  trace (load_data env u) =
  (trace (load_builtin env (selected_builtin u) None) ++
   match value (load_builtin env (selected_builtin u) None) with
   | Ret df0 => trace (load_upload env (uploaded_file u) df0)
   | Raise _ => []
   end)%list.
Proof.
  rewrite load_data_run.
  destruct (value (load_builtin env (selected_builtin u) None));
    unfold trace at 1; cbn [snd]; rewrite ?app_nil_r; reflexivity.
Qed.

(** A run that ended with the dataset [d]: the loading blocks returned it
    and the preview block returned. *)
Lemma run_ended (env : Env) (u : UserInput) (d : DataFrame) :
  active_df (script env u) = Some d ->
  value (load_data env u) = Ret (Some d) /\
  value (preview env (selected_builtin u) (Some d) (clicked u)) = Ret tt.
Proof.
  unfold active_df. rewrite value_script.
  destruct (value (load_data env u)) as [df|e]; [|discriminate].
  destruct (value (preview env (selected_builtin u) df (clicked u)))
    as [[]|e] eqn:Hp; [|discriminate].
  intros ->. split; [reflexivity|exact Hp].
Qed.

Lemma run_ends (env : Env) (u : UserInput) (df : option DataFrame) :
  value (load_data env u) = Ret df ->
  value (preview env (selected_builtin u) df (clicked u)) = Ret tt ->
  value (script env u) = Ret df.
Proof. intros Hl Hp. rewrite value_script, Hl, Hp. reflexivity. Qed.

(** *** Kinds of events in each block *)

Lemma forallb_existsb_false (Q P : event -> bool) (l : list event) :
  forallb Q l = true ->
  (forall ev, Q ev = true -> P ev = false) ->
  existsb P l = false.
Proof.
  intros Hl HP. induction l as [|x l IH]; [reflexivity|].
  cbn in Hl |- *. apply andb_true_iff in Hl as [Hx Hl].
  rewrite (HP _ Hx), (IH Hl). reflexivity.
Qed.

Lemma forallb_filter_nil (Q P : event -> bool) (l : list event) :
  forallb Q l = true ->
  (forall ev, Q ev = true -> P ev = false) ->
  filter P l = [].
Proof.
  intros Hl HP. induction l as [|x l IH]; [reflexivity|].
  cbn in Hl |- *. apply andb_true_iff in Hl as [Hx Hl].
  rewrite (HP _ Hx), (IH Hl). reflexivity.
Qed.

Lemma forallb_not_in (Q : event -> bool) (l : list event) (ev : event) :
  forallb Q l = true -> Q ev = false -> ~ In ev l.
Proof.
  intros Hl Hq Hin. rewrite forallb_forall in Hl.
  apply Hl in Hin. congruence.
Qed.

Lemma pandas_call_upload_event (f : UploadedFile) :
  is_upload_event (pandas_call f) = true.
Proof. unfold pandas_call. destruct (endswith (name f) ".csv"); reflexivity. Qed.

Lemma load_builtin_events (env : Env) (sel : string) (df : option DataFrame) :
  forallb is_builtin_event (trace (load_builtin env sel df)) = true.
Proof.
  rewrite load_builtin_run.
  destruct (String.eqb sel none_option); [reflexivity|].
  destruct (get_data env sel false) as [d|[m|m]]; reflexivity.
Qed.

Lemma load_upload_events (env : Env) (file : option UploadedFile)
    (df : option DataFrame) :
  forallb is_upload_event (trace (load_upload env file df)) = true.
Proof.
  rewrite load_upload_run. destruct file as [f|]; [|reflexivity].
  unfold pandas_call.
  destruct (pandas_read env f) as [d|[m|m]];
    [destruct (empty d)| |]; destruct (endswith (name f) ".csv"); reflexivity.
Qed.

Lemma forallb_weaken (Q Q' : event -> bool) (l : list event) :
  (forall ev, Q ev = true -> Q' ev = true) ->
  forallb Q l = true -> forallb Q' l = true.
Proof.
  intros H Hl. rewrite forallb_forall in Hl |- *. auto.
Qed.

Lemma load_data_setup (env : Env) (u : UserInput) :
  forallb is_setup_event (trace (load_data env u)) = true.
Proof.
  rewrite trace_load_data, forallb_app. apply andb_true_iff. split.
  - apply (forallb_weaken is_builtin_event);
      [intros []; cbn; congruence|apply load_builtin_events].
  - destruct (value (load_builtin env (selected_builtin u) None));
      [|reflexivity].
    apply (forallb_weaken is_upload_event);
      [intros []; cbn; congruence|apply load_upload_events].
Qed.

Lemma page_header_setup : forallb is_setup_event page_header = true.
Proof. reflexivity. Qed.

Lemma profiling_calls_spec (env : Env) (d : DataFrame) (ev : event) :
  In ev (profiling_calls env d) -> profile_call ev = Some (profile_of d).
Proof.
  unfold profiling_calls.
  destruct (ProfileReport_init env (profile_of d));
    [destruct (st_profile_report env (profile_of d))|];
    cbn; intros H; repeat (destruct H as [<-|H]; [reflexivity|]);
    contradiction.
Qed.

Lemma profiling_calls_events (env : Env) (d : DataFrame) (P : event -> bool) :
  (forall p, P (Lib_ProfileReport p) = false) ->
  (forall p, P (Lib_st_profile_report p) = false) ->
  (forall p, P (Lib_to_html p) = false) ->
  filter P (profiling_calls env d) = [] /\
  existsb P (profiling_calls env d) = false.
Proof.
  intros H1 H2 H3. unfold profiling_calls.
  destruct (ProfileReport_init env (profile_of d));
    [destruct (st_profile_report env (profile_of d))|];
    cbn; rewrite ?H1, ?H2, ?H3; split; reflexivity.
Qed.

(** When the HTML string is obtained, the three calls were made. *)
Lemma profiling_calls_complete (env : Env) (d : DataFrame) (html : string) :
  report_html env d = Ret html ->
  profiling_calls env d =
  [Lib_ProfileReport (profile_of d); Lib_st_profile_report (profile_of d);
   Lib_to_html (profile_of d)].
Proof.
  unfold report_html, profiling_calls.
  destruct (ProfileReport_init env (profile_of d)); [|discriminate].
  destruct (st_profile_report env (profile_of d)); [|discriminate].
  reflexivity.
Qed.

Lemma generate_report_events (env : Env) (sel : string) (d : DataFrame) :
  forallb is_report_event (trace (generate_report env sel d)) = true.
Proof.
  rewrite generate_report_trace. cbn [forallb is_report_event andb].
  rewrite forallb_app. apply andb_true_iff. split.
  - unfold profiling_calls.
    destruct (ProfileReport_init env (profile_of d));
      [destruct (st_profile_report env (profile_of d))|]; reflexivity.
  - destruct (report_html env d) as [h|[m|m]]; try reflexivity.
    destruct (pdfkit_from_string env h false) as [b|[m|m]];
      [destruct (String.eqb b "")| |]; reflexivity.
Qed.

Lemma preview_events (env : Env) (sel : string) (df : option DataFrame)
    (pressed : bool) :
  forallb is_preview_event (trace (preview env sel df pressed)) = true.
Proof.
  rewrite preview_trace.
  destruct df as [d|]; [|reflexivity].
  destruct (empty d); [reflexivity|].
  cbn [forallb is_preview_event andb].
  destruct (st_dataframe env (head 10 d)); [|reflexivity].
  cbn [forallb is_preview_event andb].
  destruct pressed; [|reflexivity].
  apply (forallb_weaken is_report_event);
    [intros []; cbn; congruence|apply generate_report_events].
Qed.

(** *** Where an event of a run comes from *)

(** An event that is not a setup event was emitted by the preview block,
    after the loading blocks returned. *)
Lemma in_script_preview (env : Env) (u : UserInput) (ev : event) :
  is_setup_event ev = false ->
  In ev (trace (script env u)) ->
  exists df,
    value (load_data env u) = Ret df /\
    In ev (trace (preview env (selected_builtin u) df (clicked u))).
Proof.
  intros Hk Hin. rewrite trace_script in Hin.
  apply in_app_or in Hin as [H|H];
    [exfalso; exact (forallb_not_in _ _ _ page_header_setup Hk H)|].
  apply in_app_or in H as [H|H];
    [exfalso; exact (forallb_not_in _ _ _ (load_data_setup env u) Hk H)|].
  destruct (value (load_data env u)) as [df|e]; [|contradiction].
  exists df. split; [reflexivity|exact H].
Qed.

Lemma in_script_header (env : Env) (u : UserInput) (ev : event) :
  In ev page_header -> In ev (trace (script env u)).
Proof. intros H. rewrite trace_script. apply in_or_app. left. exact H. Qed.

Lemma in_script_load (env : Env) (u : UserInput) (ev : event) :
  In ev (trace (load_data env u)) -> In ev (trace (script env u)).
Proof.
  intros H. rewrite trace_script. apply in_or_app. right.
  apply in_or_app. left. exact H.
Qed.

Lemma in_script_from_preview
    (env : Env) (u : UserInput) (df : option DataFrame) (ev : event) :
  value (load_data env u) = Ret df ->
  In ev (trace (preview env (selected_builtin u) df (clicked u))) ->
  In ev (trace (script env u)).
Proof.
  intros Hl H. rewrite trace_script, Hl. apply in_or_app. right.
  apply in_or_app. right. exact H.
Qed.

Lemma existsb_script (env : Env) (u : UserInput) (P : event -> bool) :
  (forall ev, is_setup_event ev = true -> P ev = false) ->
  existsb P (trace (script env u)) =
  match value (load_data env u) with
  | Ret df => existsb P (trace (preview env (selected_builtin u) df (clicked u)))
  | Raise _ => false
  end.
Proof.
  intros HP. rewrite trace_script, !existsb_app.
  rewrite (forallb_existsb_false _ P _ page_header_setup HP).
  rewrite (forallb_existsb_false _ P _ (load_data_setup env u) HP).
  destruct (value (load_data env u)); reflexivity.
Qed.

Lemma filter_script (env : Env) (u : UserInput) (P : event -> bool) :
  filter P (trace (script env u)) =
  (filter P page_header ++ filter P (trace (load_data env u)) ++
   match value (load_data env u) with
   | Ret df => filter P (trace (preview env (selected_builtin u) df (clicked u)))
   | Raise _ => []
   end)%list.
Proof.
  rewrite trace_script, !filter_app.
  destruct (value (load_data env u)); reflexivity.
Qed.

Lemma setup_not_html_export (ev : event) :
  is_setup_event ev = true -> is_html_export ev = false.
Proof. destruct ev; cbn; congruence. Qed.

Lemma setup_not_pdf_export (ev : event) :
  is_setup_event ev = true -> is_pdf_export ev = false.
Proof. destruct ev; cbn; congruence. Qed.

(** The trace of the preview block for a non-empty dataset that
    [st.dataframe] accepts. *)
Lemma preview_active (env : Env) (sel : string) (d : DataFrame) (pressed : bool) :
  empty d = false ->
  st_dataframe env (head 10 d) = Ret tt ->
  trace (preview env sel (Some d) pressed) =
  St_subheader "📋 Data Preview" ::
  St_dataframe (head 10 d) true ::
  St_button "Generate Profiling Report" ::
  (if pressed then trace (generate_report env sel d) else []).
Proof. intros He Hs. rewrite preview_trace, He, Hs. reflexivity. Qed.

(** An event of the report block of a run. *)
Lemma in_report_block (env : Env) (u : UserInput) (ev : event) :
  is_setup_event ev = false ->
  is_report_event ev = true ->
  In ev (trace (script env u)) ->
  exists d,
    value (load_data env u) = Ret (Some d) /\ empty d = false /\
    st_dataframe env (head 10 d) = Ret tt /\ clicked u = true /\
    In ev (trace (generate_report env (selected_builtin u) d)).
Proof.
  intros Hs Hr Hin.
  apply in_script_preview in Hin as (df & Hl & Hin); [|exact Hs].
  rewrite preview_trace in Hin.
  destruct df as [d|]; [|destruct Hin as [<-|[]]; discriminate].
  destruct (empty d) eqn:He; [destruct Hin as [<-|[]]; discriminate|].
  destruct Hin as [<-|[<-|Hin]]; try discriminate.
  destruct (st_dataframe env (head 10 d)) as [[]|e] eqn:Hd; [|contradiction].
  destruct Hin as [<-|Hin]; [discriminate|].
  destruct (clicked u); [|contradiction].
  exists d. repeat split; assumption.
Qed.

(** The converse: the report block's events are events of the run. *)
Lemma report_block_in_script
    (env : Env) (u : UserInput) (d : DataFrame) (ev : event) :
  value (load_data env u) = Ret (Some d) -> empty d = false ->
  st_dataframe env (head 10 d) = Ret tt -> clicked u = true ->
  In ev (trace (generate_report env (selected_builtin u) d)) ->
  In ev (trace (script env u)).
Proof.
  intros Hl He Hs Hc Hin.
  apply (in_script_from_preview env u (Some d)); [exact Hl|].
  rewrite (preview_active _ _ _ _ He Hs), Hc. do 3 right. exact Hin.
Qed.

(** A run that ended with a non-empty dataset got through [st.dataframe],
    and through the report block when the button was pressed. *)
Lemma run_ended_preview (env : Env) (u : UserInput) (d : DataFrame) :
  active_df (script env u) = Some d -> empty d = false ->
  value (load_data env u) = Ret (Some d) /\
  st_dataframe env (head 10 d) = Ret tt /\
  (clicked u = true ->
   value (generate_report env (selected_builtin u) d) = Ret tt).
Proof.
  intros Ha He. apply run_ended in Ha as [Hl Hp].
  rewrite preview_value, He in Hp.
  destruct (st_dataframe env (head 10 d)) as [[]|e]; [|discriminate].
  repeat split; [exact Hl|]. intros Hc. rewrite Hc in Hp. exact Hp.
Qed.

(** ** Loading *)

(** What the loading blocks leave in [df] when a file was uploaded and the
    built-in block returned. *)
Lemma load_data_upload
    (env : Env) (u : UserInput) (file : UploadedFile) (df0 : option DataFrame) :
  uploaded_file u = Some file ->
  value (load_builtin env (selected_builtin u) None) = Ret df0 ->
  value (load_data env u) =
  match pandas_read env file with
  | Ret d => Ret (Some d)
  | Raise e =>
      if isinstance_Exception e then Ret (Some pd_DataFrame) else Raise e
  end.
Proof.
  intros Hf Hb. rewrite value_load_data, Hb, Hf, load_upload_run.
  destruct (pandas_read env file) as [d|[m|m]]; reflexivity.
Qed.

Lemma read_uploaded_file_value (env : Env) (file : UploadedFile) :
  value (read_uploaded_file env file) =
  match pandas_read env file with
  | Ret d => Ret d
  | Raise e => if isinstance_Exception e then Ret pd_DataFrame else Raise e
  end.
Proof.
  rewrite read_uploaded_file_run.
  destruct (pandas_read env file) as [d|[m|m]]; reflexivity.
Qed.

(** C10, as stated, fails: [KeyboardInterrupt] is not an instance of
    [Exception].  When the server is interrupted while pandas parses,
    [read_uploaded_file] returns no frame: the exception goes on to its
    caller. *)
Lemma interrupt_leaves_read_uploaded_file :
  pandas_read Demo.env_interrupted Demo.good_csv
    = Raise (BaseException "KeyboardInterrupt") /\
  value (read_uploaded_file Demo.env_interrupted Demo.good_csv)
    = Raise (BaseException "KeyboardInterrupt") /\
  ~ returns_a_frame Demo.env_interrupted Demo.good_csv.
Proof.
  split; [reflexivity|]. split; [reflexivity|].
  intros [d Hd]. cbv in Hd. discriminate.
Qed.

(** C10, amended: [read_uploaded_file] returns the frame pandas parsed
    when parsing succeeds, and the empty [pd.DataFrame()], with the error
    shown, when parsing raises an instance of [Exception]; an exception
    that is not an instance of [Exception] is not caught and goes on to
    the caller, with no message. *)
Theorem read_uploaded_file_outcome (env : Env) (file : UploadedFile) :
  value (read_uploaded_file env file) =
    match pandas_read env file with
    | Ret d => Ret d
    | Raise e => if isinstance_Exception e then Ret pd_DataFrame else Raise e
    end /\
  existsb is_error (trace (read_uploaded_file env file)) =
    is_raise (pandas_read env file) && negb (interrupted (pandas_read env file)).
Proof.
  split; [apply read_uploaded_file_value|].
  rewrite read_uploaded_file_run. unfold pandas_call.
  destruct (pandas_read env file) as [d|[m|m]];
    destruct (endswith (name file) ".csv"); reflexivity.
Qed.

(** C3: when pandas cannot parse the uploaded file (a parse failure is an
    instance of [Exception]), [read_uploaded_file] returns the empty frame
    and shows [st.error] with the parser's message; the run of the script
    that received the file, once past the built-in block, ends normally,
    with the empty frame as its dataset and the message on the page. *)
Theorem malformed_upload_reported
    (env : Env) (u : UserInput) (file : UploadedFile) (e : exn)
    (df0 : option DataFrame) :
  uploaded_file u = Some file ->
  pandas_read env file = Raise e ->
  isinstance_Exception e = true ->
  value (load_builtin env (selected_builtin u) None) = Ret df0 ->
  value (read_uploaded_file env file) = Ret pd_DataFrame /\
  empty pd_DataFrame = true /\
  In (St_error ("Could not read the file: " ++ str e))
     (trace (read_uploaded_file env file)) /\
  value (script env u) = Ret (Some pd_DataFrame) /\
  In (St_error ("Could not read the file: " ++ str e)) (trace (script env u)).
Proof.
  intros Hf He Hi Hb.
  assert (Hl : value (load_data env u) = Ret (Some pd_DataFrame)).
  { rewrite (load_data_upload env u file df0 Hf Hb), He, Hi. reflexivity. }
  repeat split.
  - rewrite read_uploaded_file_value, He, Hi. reflexivity.
  - rewrite read_uploaded_file_run, He, Hi. right. left. reflexivity.
  - apply run_ends with (1 := Hl). rewrite preview_value. reflexivity.
  - apply in_script_load. rewrite trace_load_data, Hb, Hf, load_upload_run, He, Hi.
    apply in_or_app. right. right. left. reflexivity.
Qed.

Lemma malformed_upload_reported_witness :
  uploaded_file Demo.u_iris_bad_upload = Some Demo.bad_csv /\
  pandas_read Demo.env Demo.bad_csv =
    Raise (Exception
      "Error tokenizing data. C error: Expected 2 fields in line 3, saw 3") /\
  value (script Demo.env Demo.u_iris_bad_upload) = Ret (Some pd_DataFrame) /\
  In (St_error
        "Could not read the file: Error tokenizing data. C error: Expected 2 fields in line 3, saw 3")
     (trace (script Demo.env Demo.u_iris_bad_upload)).
Proof.
  split; [reflexivity|]. split; [reflexivity|].
  apply (malformed_upload_reported Demo.env Demo.u_iris_bad_upload
           Demo.bad_csv
           (Exception
              "Error tokenizing data. C error: Expected 2 fields in line 3, saw 3")
           (Some Demo.iris_df));
    reflexivity.
Defined.

(** C1: in a run where the uploader returned a file, once the built-in
    block has returned (with whatever it loaded) and pandas is not
    interrupted, [df] is the frame [read_uploaded_file] produced for that
    file: it is what the preview guard finds, and what the run ends with
    when it ends.  Two such runs with the same upload have the same
    dataset, whatever the select box holds and whatever [get_data]
    answered. *)
Theorem upload_overrides_builtin
    (env : Env) (u : UserInput) (file : UploadedFile) (df0 : option DataFrame) :
  uploaded_file u = Some file ->
  value (load_builtin env (selected_builtin u) None) = Ret df0 ->
  interrupted (pandas_read env file) = false ->
  (exists d, value (read_uploaded_file env file) = Ret d /\
             value (load_data env u) = Ret (Some d) /\
             (forall r, value (script env u) = Ret r -> r = Some d) /\
             (value (preview env (selected_builtin u) (Some d) (clicked u))
                = Ret tt ->
              active_df (script env u) = Some d)) /\
  (forall env' u' df0',
     uploaded_file u' = Some file ->
     read_csv env' = read_csv env -> read_excel env' = read_excel env ->
     value (load_builtin env' (selected_builtin u') None) = Ret df0' ->
     value (load_data env' u') = value (load_data env u)).
Proof.
  intros Hf Hb Hi. split.
  - pose proof (load_data_upload env u file df0 Hf Hb) as Hl.
    pose proof (read_uploaded_file_value env file) as Hr.
    destruct (pandas_read env file) as [d|[m|m]]; try discriminate;
      cbn [isinstance_Exception] in Hl, Hr.
    + exists d. repeat split; try assumption.
      * intros r Hs. rewrite value_script, Hl in Hs.
        destruct (value (preview env (selected_builtin u) (Some d) (clicked u)));
          [injection Hs as <-; reflexivity|discriminate].
      * intros Hp. unfold active_df. rewrite (run_ends _ _ _ Hl Hp). reflexivity.
    + exists pd_DataFrame. repeat split; try assumption.
      * intros r Hs. rewrite value_script, Hl in Hs.
        destruct (value (preview env (selected_builtin u) (Some pd_DataFrame)
                           (clicked u)));
          [injection Hs as <-; reflexivity|discriminate].
      * intros Hp. unfold active_df. rewrite (run_ends _ _ _ Hl Hp). reflexivity.
  - intros env' u' df0' Hf' Hc Hx Hb'.
    rewrite (load_data_upload env u file df0 Hf Hb).
    rewrite (load_data_upload env' u' file df0' Hf' Hb').
    unfold pandas_read. rewrite Hc, Hx. reflexivity.
Qed.

Lemma upload_overrides_builtin_witness :
  uploaded_file Demo.u_both = Some Demo.good_csv /\
  value (load_builtin Demo.env (selected_builtin Demo.u_both) None)
    = Ret (Some Demo.iris_df) /\
  interrupted (pandas_read Demo.env Demo.good_csv) = false /\
  exists d, value (read_uploaded_file Demo.env Demo.good_csv) = Ret d /\
            value (load_data Demo.env Demo.u_both) = Ret (Some d) /\
            active_df (script Demo.env Demo.u_both) = Some d.
Proof.
  split; [reflexivity|]. split; [reflexivity|]. split; [reflexivity|].
  destruct (proj1 (upload_overrides_builtin Demo.env Demo.u_both Demo.good_csv
                     (Some Demo.iris_df) eq_refl eq_refl eq_refl))
    as (d & Hr & Hl & _ & _).
  exists d. split; [exact Hr|]. split; [exact Hl|].
  cbv in Hr. injection Hr as <-. reflexivity.
Defined.

(** C7: when a built-in name is selected and [get_data] raises (an
    instance of [Exception]), the block shows [st.error] with the message
    and leaves [df] as it was, [None]; the message is on the page, and
    with no upload the run ends with no dataset, in [Idle]. *)
Theorem builtin_load_failure_reported (env : Env) (u : UserInput) (e : exn) :
  selected_builtin u <> none_option ->
  get_data env (selected_builtin u) false = Raise e ->
  isinstance_Exception e = true ->
  load_builtin env (selected_builtin u) None =
    (Ret None,
     [Lib_get_data (selected_builtin u) false;
      St_error ("Error loading built‑in dataset: " ++ str e)]) /\
  In (St_error ("Error loading built‑in dataset: " ++ str e))
     (trace (script env u)) /\
  (uploaded_file u = None ->
   active_df (script env u) = None /\ shell_state (script env u) = Some Idle).
Proof.
  intros Hsel He Hi.
  apply String.eqb_neq in Hsel.
  assert (Hrun : load_builtin env (selected_builtin u) None =
    (Ret None, [Lib_get_data (selected_builtin u) false;
                St_error ("Error loading built‑in dataset: " ++ str e)])).
  { rewrite load_builtin_run, Hsel, He, Hi. reflexivity. }
  split; [exact Hrun|]. split.
  - apply in_script_load. rewrite trace_load_data. apply in_or_app. left.
    rewrite Hrun. right. left. reflexivity.
  - intros Hf.
    assert (Hl : value (load_data env u) = Ret None).
    { rewrite value_load_data, Hrun, Hf. reflexivity. }
    assert (Hs : value (script env u) = Ret None).
    { apply run_ends with (1 := Hl). reflexivity. }
    split.
    + unfold active_df. rewrite Hs. reflexivity.
    + unfold shell_state. rewrite Hs. reflexivity.
Qed.

Lemma builtin_load_failure_reported_witness :
  selected_builtin Demo.u_adult <> none_option /\
  get_data Demo.env (selected_builtin Demo.u_adult) false =
    Raise (Exception "HTTP Error 404: Not Found") /\
  In (St_error "Error loading built‑in dataset: HTTP Error 404: Not Found")
     (trace (script Demo.env Demo.u_adult)) /\
  active_df (script Demo.env Demo.u_adult) = None /\
  shell_state (script Demo.env Demo.u_adult) = Some Idle.
Proof.
  assert (Hsel : selected_builtin Demo.u_adult <> none_option)
    by (cbn; discriminate).
  split; [exact Hsel|]. split; [reflexivity|].
  destruct (builtin_load_failure_reported Demo.env Demo.u_adult
              (Exception "HTTP Error 404: Not Found") Hsel eq_refl eq_refl)
    as (_ & Hin & Hidle).
  split; [exact Hin|]. exact (Hidle eq_refl).
Defined.

(** ** Preview and profiling *)

(** Every call into ydata-profiling made by the report block is about the
    report built from the frame it was given. *)
Lemma generate_report_profile_calls
    (env : Env) (sel : string) (d : DataFrame) (ev : event) (p : ProfileReport) :
  In ev (trace (generate_report env sel d)) ->
  profile_call ev = Some p -> p = profile_of d.
Proof.
  rewrite generate_report_trace.
  intros [<-|H] Hp; [discriminate|].
  apply in_app_or in H as [H|H].
  - apply profiling_calls_spec in H. congruence.
  - exfalso.
    destruct (report_html env d) as [h|[m|m]].
    + destruct H as [<-|[<-|[<-|H]]]; try discriminate.
      destruct (pdfkit_from_string env h false) as [b|[m|m]];
        [destruct (String.eqb b "")| |];
        repeat (destruct H as [<-|H]; [discriminate|]); contradiction.
    + destruct H as [<-|[]]. discriminate.
    + contradiction.
Qed.

(** The one call to [st.dataframe] of a run that loaded data. *)
Lemma dataframe_calls (env : Env) (u : UserInput) (d : DataFrame) :
  value (load_data env u) = Ret (Some d) ->
  empty d = false ->
  filter is_dataframe (trace (script env u)) = [St_dataframe (head 10 d) true].
Proof.
  intros Hl He. rewrite filter_script, Hl.
  rewrite (forallb_filter_nil is_setup_event is_dataframe _
             (load_data_setup env u)) by (intros []; cbn; congruence).
  replace (filter is_dataframe page_header) with (@nil event) by reflexivity.
  rewrite preview_trace, He. cbn [app filter is_dataframe].
  f_equal.
  destruct (st_dataframe env (head 10 d)); [|reflexivity].
  cbn [filter is_dataframe].
  destruct (clicked u); [|reflexivity].
  apply (forallb_filter_nil is_report_event);
    [apply generate_report_events|intros []; cbn; congruence].
Qed.

(** C8, as stated, fails: [st.dataframe] is called outside any handler.
    On a non-empty frame it cannot serialise (here an integer beyond 64
    bits) the call raises, no table is displayed, and the block ends
    there, before the button. *)
Lemma preview_fails_on_unserialisable_frame :
  empty Demo.big_df = false /\
  st_dataframe Demo.env (head 10 Demo.big_df)
    = Raise (Exception "Python int too large to convert to C long") /\
  value (preview Demo.env none_option (Some Demo.big_df) false)
    = Raise (Exception "Python int too large to convert to C long") /\
  existsb is_button (trace (preview Demo.env none_option (Some Demo.big_df) false))
    = false /\
  ~ preview_displays Demo.env none_option Demo.big_df false.
Proof.
  repeat split; try reflexivity.
  intros H. destruct (H eq_refl) as [_ Hd]. cbv in Hd. discriminate.
Qed.

(** C8, amended: in a run that loaded a non-empty dataset [d], the one
    frame handed to [st.dataframe], in one call, is [d.head(10)]: the
    columns of [d] with its first ten rows (all of them when there are
    fewer).  [head] builds a
    new frame: [d] itself is what the run hands to the profile generator
    and what it ends with.  When [st.dataframe] returns, the table is
    displayed and the run goes on to the button; when it raises, the run
    ends there with that exception. *)
Theorem preview_shows_first_ten_rows (env : Env) (u : UserInput) (d : DataFrame) :
  value (load_data env u) = Ret (Some d) ->
  empty d = false ->
  In (St_dataframe (head 10 d) true) (trace (script env u)) /\
  (forall data w, In (St_dataframe data w) (trace (script env u)) ->
                  data = head 10 d) /\
  filter is_dataframe (trace (script env u)) = [St_dataframe (head 10 d) true] /\
  columns (head 10 d) = columns d /\
  rows (head 10 d) = firstn 10 (rows d) /\
  length (rows (head 10 d)) = Nat.min 10 (length (rows d)) /\
  (forall p, In (Lib_ProfileReport p) (trace (script env u)) -> report_df p = d) /\
  (forall r, value (script env u) = Ret r -> r = Some d) /\
  (st_dataframe env (head 10 d) = Ret tt ->
   table_displayed env d (preview env (selected_builtin u) (Some d) (clicked u)) /\
   In (St_button "Generate Profiling Report") (trace (script env u)) /\
   (clicked u = false -> value (script env u) = Ret (Some d))) /\
  (forall e, st_dataframe env (head 10 d) = Raise e ->
   value (script env u) = Raise e /\
   existsb is_button (trace (script env u)) = false).
Proof.
  intros Hl He.
  assert (Hin : In (St_dataframe (head 10 d) true)
                   (trace (preview env (selected_builtin u) (Some d) (clicked u)))).
  { rewrite preview_trace, He. right. left. reflexivity. }
  split; [apply (in_script_from_preview env u (Some d) _ Hl Hin)|].
  split.
  { intros data w H.
    apply in_script_preview in H as (df & Hl' & H); [|reflexivity].
    rewrite Hl in Hl'. injection Hl' as <-.
    rewrite preview_trace, He in H.
    destruct H as [H|[H|H]]; try discriminate; [congruence|].
    destruct (st_dataframe env (head 10 d)); [|contradiction].
    destruct H as [H|H]; [discriminate|].
    destruct (clicked u); [|contradiction].
    exfalso. revert H.
    apply (forallb_not_in is_report_event);
      [apply generate_report_events|reflexivity]. }
  split; [exact (dataframe_calls env u d Hl He)|].
  split; [reflexivity|]. split; [reflexivity|].
  split; [apply length_firstn|].
  split.
  { intros p H.
    apply in_report_block in H as (d' & Hl' & _ & _ & _ & H); try reflexivity.
    rewrite Hl in Hl'. injection Hl' as <-.
    apply generate_report_profile_calls with (p := p) in H; [|reflexivity].
    subst p. reflexivity. }
  split.
  { intros r H. rewrite value_script, Hl in H.
    destruct (value (preview env (selected_builtin u) (Some d) (clicked u)));
      [injection H as <-; reflexivity|discriminate]. }
  split.
  - intros Hs. split; [split; assumption|]. split.
    + apply (in_script_from_preview env u (Some d) _ Hl).
      rewrite (preview_active _ _ _ _ He Hs). do 2 right. left. reflexivity.
    + intros Hc. apply run_ends with (1 := Hl).
      rewrite preview_value, He, Hs, Hc. reflexivity.
  - intros e Hs. split.
    + rewrite value_script, Hl, preview_value, He, Hs. reflexivity.
    + rewrite existsb_script by (intros []; cbn; congruence).
      rewrite Hl, preview_trace, He, Hs. reflexivity.
Qed.

Lemma preview_shows_first_ten_rows_witness :
  value (load_data Demo.env Demo.u_iris) = Ret (Some Demo.iris_df) /\
  empty Demo.iris_df = false /\
  st_dataframe Demo.env (head 10 Demo.iris_df) = Ret tt /\
  In (St_dataframe (head 10 Demo.iris_df) true)
     (trace (script Demo.env Demo.u_iris)) /\
  length (rows (head 10 Demo.iris_df)) = 10 /\
  length (rows Demo.iris_df) = 12 /\
  value (script Demo.env Demo.u_iris) = Ret (Some Demo.iris_df).
Proof.
  split; [reflexivity|]. split; [reflexivity|]. split; [reflexivity|].
  destruct (preview_shows_first_ten_rows Demo.env Demo.u_iris Demo.iris_df
              eq_refl eq_refl)
    as (Hin & _ & _ & _ & _ & Hlen & _ & _ & Hret & _).
  split; [exact Hin|]. split; [exact Hlen|]. split; [reflexivity|].
  exact (proj2 (proj2 (Hret eq_refl)) eq_refl).
Defined.

(** C9: every call into ydata-profiling made by a run (constructing the
    report, rendering it, serialising it) is on the report built from the
    whole dataset the run loaded, with [minimal=True]. *)
Theorem profile_runs_on_full_dataset_minimal
    (env : Env) (u : UserInput) (ev : event) (p : ProfileReport) :
  In ev (trace (script env u)) ->
  profile_call ev = Some p ->
  value (load_data env u) = Ret (Some (report_df p)) /\
  empty (report_df p) = false /\
  minimal p = true /\
  p = profile_of (report_df p).
Proof.
  intros Hin Hp.
  apply in_report_block in Hin as (d & Hl & He & _ & _ & Hin);
    [|destruct ev; try reflexivity; discriminate..].
  apply generate_report_profile_calls with (p := p) in Hin; [|exact Hp].
  subst p. repeat split; assumption.
Qed.

Lemma profile_runs_on_full_dataset_minimal_witness :
  In (Lib_ProfileReport (profile_of Demo.iris_df))
     (trace (script Demo.env Demo.u_iris_report)) /\
  value (load_data Demo.env Demo.u_iris_report) = Ret (Some Demo.iris_df) /\
  minimal (profile_of Demo.iris_df) = true.
Proof.
  assert (Hin : In (Lib_ProfileReport (profile_of Demo.iris_df))
                   (trace (script Demo.env Demo.u_iris_report))).
  { cbn. do 13 right. left. reflexivity. }
  split; [exact Hin|].
  destruct (profile_runs_on_full_dataset_minimal Demo.env Demo.u_iris_report
              _ _ Hin eq_refl) as (Hd & _ & Hm & _).
  split; [exact Hd|exact Hm].
Defined.

(** ** Export *)

(** The trace of the report block when the HTML string is obtained and the
    PDF conversion raises an instance of [Exception]. *)
Lemma generate_report_pdf_failure
    (env : Env) (sel : string) (d : DataFrame) (html : string) (e : exn) :
  report_html env d = Ret html ->
  pdfkit_from_string env html false = Raise e ->
  isinstance_Exception e = true ->
  trace (generate_report env sel d) =
  [St_spinner "Creating the profile…";
   Lib_ProfileReport (profile_of d);
   Lib_st_profile_report (profile_of d);
   Lib_to_html (profile_of d);
   St_columns 2;
   html_button sel html;
   Lib_pdfkit_from_string html false;
   St_warning ("PDF conversion failed: " ++ str e)].
Proof.
  intros Hh He Hi.
  rewrite generate_report_trace, Hh, He, Hi, (profiling_calls_complete _ _ _ Hh).
  reflexivity.
Qed.

(** C4: in a run that obtained the report's HTML string, when
    [pdfkit.from_string] raises (an instance of [Exception]),
    [convert_html_to_pdf] returns [None], the run ends normally in
    [Profiled], the HTML download button with that string is on the page,
    the failure is shown with [st.warning], there is no PDF download
    button, and the report block shows no [st.error]. *)
Theorem pdf_failure_keeps_html_export
    (env : Env) (u : UserInput) (d : DataFrame) (html : string) (e : exn) :
  value (load_data env u) = Ret (Some d) ->
  empty d = false ->
  st_dataframe env (head 10 d) = Ret tt ->
  clicked u = true ->
  report_html env d = Ret html ->
  pdfkit_from_string env html false = Raise e ->
  isinstance_Exception e = true ->
  value (convert_html_to_pdf env html) = Ret None /\
  value (script env u) = Ret (Some d) /\
  In (html_button (selected_builtin u) html) (trace (script env u)) /\
  In (St_warning ("PDF conversion failed: " ++ str e)) (trace (script env u)) /\
  existsb is_pdf_export (trace (script env u)) = false /\
  existsb is_error (trace (generate_report env (selected_builtin u) d)) = false /\
  shell_state (script env u) = Some (Profiled d).
Proof.
  intros Hl He Hs Hc Hh Hp Hi.
  pose proof (generate_report_pdf_failure env (selected_builtin u) d html e
                Hh Hp Hi) as Hg.
  assert (Hprev : trace (preview env (selected_builtin u) (Some d) (clicked u))
                  = St_subheader "📋 Data Preview" ::
                    St_dataframe (head 10 d) true ::
                    St_button "Generate Profiling Report" ::
                    trace (generate_report env (selected_builtin u) d)).
  { rewrite (preview_active _ _ _ _ He Hs), Hc. reflexivity. }
  rewrite Hg in Hprev.
  assert (Hv : value (script env u) = Ret (Some d)).
  { apply run_ends with (1 := Hl).
    rewrite preview_value, He, Hs, Hc, generate_report_value, Hh, Hp, Hi.
    reflexivity. }
  split; [rewrite convert_html_to_pdf_run, Hp, Hi; reflexivity|].
  split; [exact Hv|].
  split; [apply (in_script_from_preview env u (Some d) _ Hl); rewrite Hprev;
          do 8 right; left; reflexivity|].
  split; [apply (in_script_from_preview env u (Some d) _ Hl); rewrite Hprev;
          do 10 right; left; reflexivity|].
  split; [rewrite (existsb_script _ _ _ setup_not_pdf_export), Hl, Hprev;
          reflexivity|].
  split; [rewrite Hg; reflexivity|].
  unfold shell_state. rewrite Hv, He.
  rewrite (existsb_script _ _ _ setup_not_html_export), Hl, Hprev. reflexivity.
Qed.

Lemma pdf_failure_keeps_html_export_witness :
  value (load_data Demo.env Demo.u_iris_report) = Ret (Some Demo.iris_df) /\
  st_dataframe Demo.env (head 10 Demo.iris_df) = Ret tt /\
  report_html Demo.env Demo.iris_df = Ret Demo.html_doc /\
  pdfkit_from_string Demo.env Demo.html_doc false =
    Raise (Exception "No wkhtmltopdf executable found") /\
  value (script Demo.env Demo.u_iris_report) = Ret (Some Demo.iris_df) /\
  In (html_button "iris" Demo.html_doc)
     (trace (script Demo.env Demo.u_iris_report)) /\
  In (St_warning "PDF conversion failed: No wkhtmltopdf executable found")
     (trace (script Demo.env Demo.u_iris_report)) /\
  existsb is_pdf_export (trace (script Demo.env Demo.u_iris_report)) = false /\
  shell_state (script Demo.env Demo.u_iris_report) = Some (Profiled Demo.iris_df).
Proof.
  split; [reflexivity|]. split; [reflexivity|]. split; [reflexivity|].
  split; [reflexivity|].
  destruct (pdf_failure_keeps_html_export Demo.env Demo.u_iris_report
              Demo.iris_df Demo.html_doc
              (Exception "No wkhtmltopdf executable found")
              eq_refl eq_refl eq_refl eq_refl eq_refl eq_refl eq_refl)
    as (_ & Hv & Hhtml & Hwarn & Hpdf & _ & Hst).
  repeat split; assumption.
Defined.

(** ** Failures and the shell's state *)

(** C2, as stated, fails: with [iris] loaded and shown, the user uploads a
    file that pandas rejects.  In the next run [iris] is loaded again and
    then replaced by the empty frame: the shell falls back to [Idle]. *)
Lemma failed_upload_discards_dataset :
  shell_state (script Demo.env Demo.u_iris) = Some (Loaded Demo.iris_df) /\
  upload_fails Demo.env Demo.u_iris_bad_upload = true /\
  value (load_builtin Demo.env (selected_builtin Demo.u_iris_bad_upload) None)
    = Ret (Some Demo.iris_df) /\
  active_df (script Demo.env Demo.u_iris_bad_upload) = Some pd_DataFrame /\
  shell_state (script Demo.env Demo.u_iris_bad_upload) = Some Idle /\
  ~ keeps_prior_state Demo.env Demo.u_iris Demo.u_iris_bad_upload.
Proof.
  repeat split; try reflexivity.
  intros H. specialize (H eq_refl). cbv in H. discriminate.
Qed.

(** C2, amended: a failed load, upload or profiling whose exception is an
    instance of [Exception] is caught and shown with [st.error], and the
    run goes on from a state fixed by that run alone.  A failed profiling
    leaves the run's dataset in place and the shell in [Loaded]; a failed
    built-in load leaves [df] unset; a failed upload makes the empty frame
    the dataset, so the shell is [Idle], whatever the built-in block had
    loaded. *)
Theorem failed_action_outcome (env : Env) (u : UserInput) :
  (forall d e,
     value (load_data env u) = Ret (Some d) -> empty d = false ->
     st_dataframe env (head 10 d) = Ret tt -> clicked u = true ->
     report_html env d = Raise e -> isinstance_Exception e = true ->
     value (script env u) = Ret (Some d) /\
     shell_state (script env u) = Some (Loaded d) /\
     In (St_error ("Profiling failed: " ++ str e)) (trace (script env u))) /\
  (forall e,
     selected_builtin u <> none_option ->
     get_data env (selected_builtin u) false = Raise e ->
     isinstance_Exception e = true ->
     value (load_builtin env (selected_builtin u) None) = Ret None /\
     In (St_error ("Error loading built‑in dataset: " ++ str e))
        (trace (script env u))) /\
  (forall f e df0,
     uploaded_file u = Some f -> pandas_read env f = Raise e ->
     isinstance_Exception e = true ->
     value (load_builtin env (selected_builtin u) None) = Ret df0 ->
     value (script env u) = Ret (Some pd_DataFrame) /\
     shell_state (script env u) = Some Idle /\
     In (St_error ("Could not read the file: " ++ str e)) (trace (script env u))).
Proof.
  split; [|split].
  - intros d e Hl He Hs Hc Hr Hi.
    assert (Hg : trace (generate_report env (selected_builtin u) d) =
                 (St_spinner "Creating the profile…" ::
                  profiling_calls env d ++
                  [St_error ("Profiling failed: " ++ str e)])%list).
    { rewrite generate_report_trace, Hr, Hi. reflexivity. }
    assert (Hv : value (script env u) = Ret (Some d)).
    { apply run_ends with (1 := Hl).
      rewrite preview_value, He, Hs, Hc, generate_report_value, Hr, Hi.
      reflexivity. }
    split; [exact Hv|]. split.
    + unfold shell_state. rewrite Hv, He.
      rewrite (existsb_script _ _ _ setup_not_html_export), Hl.
      rewrite (preview_active _ _ _ _ He Hs), Hc, Hg.
      cbn [existsb is_html_export orb]. rewrite existsb_app.
      destruct (profiling_calls_events env d is_html_export) as [_ ->];
        reflexivity.
    + apply (report_block_in_script env u d); try assumption.
      rewrite Hg. right. apply in_or_app. right. left. reflexivity.
  - intros e Hsel He Hi. apply String.eqb_neq in Hsel.
    assert (Hrun : load_builtin env (selected_builtin u) None =
      (Ret None, [Lib_get_data (selected_builtin u) false;
                  St_error ("Error loading built‑in dataset: " ++ str e)])).
    { rewrite load_builtin_run, Hsel, He, Hi. reflexivity. }
    split; [rewrite Hrun; reflexivity|].
    apply in_script_load. rewrite trace_load_data. apply in_or_app. left.
    rewrite Hrun. right. left. reflexivity.
  - intros f e df0 Hf He Hi Hb.
    assert (Hl : value (load_data env u) = Ret (Some pd_DataFrame)).
    { rewrite (load_data_upload env u f df0 Hf Hb), He, Hi. reflexivity. }
    assert (Hv : value (script env u) = Ret (Some pd_DataFrame)).
    { apply run_ends with (1 := Hl). rewrite preview_value. reflexivity. }
    split; [exact Hv|]. split.
    + unfold shell_state. rewrite Hv. reflexivity.
    + apply in_script_load.
      rewrite trace_load_data, Hb, Hf, load_upload_run, He, Hi.
      apply in_or_app. right. right. left. reflexivity.
Qed.

Lemma failed_action_outcome_witness :
  (value (load_data Demo.env_no_report Demo.u_iris_report) = Ret (Some Demo.iris_df) /\
   report_html Demo.env_no_report Demo.iris_df =
     Raise (Exception "DataFrame has no usable column") /\
   shell_state (script Demo.env_no_report Demo.u_iris_report)
     = Some (Loaded Demo.iris_df) /\
   In (St_error "Profiling failed: DataFrame has no usable column")
      (trace (script Demo.env_no_report Demo.u_iris_report))) /\
  (get_data Demo.env (selected_builtin Demo.u_adult) false =
     Raise (Exception "HTTP Error 404: Not Found") /\
   value (load_builtin Demo.env (selected_builtin Demo.u_adult) None) = Ret None /\
   In (St_error "Error loading built‑in dataset: HTTP Error 404: Not Found")
      (trace (script Demo.env Demo.u_adult))) /\
  (pandas_read Demo.env Demo.bad_csv =
     Raise (Exception
       "Error tokenizing data. C error: Expected 2 fields in line 3, saw 3") /\
   shell_state (script Demo.env Demo.u_iris_bad_upload) = Some Idle /\
   In (St_error
         "Could not read the file: Error tokenizing data. C error: Expected 2 fields in line 3, saw 3")
      (trace (script Demo.env Demo.u_iris_bad_upload))).
Proof.
  split; [|split].
  - split; [reflexivity|]. split; [reflexivity|].
    exact (proj2 (proj1 (failed_action_outcome Demo.env_no_report
                           Demo.u_iris_report)
                    Demo.iris_df (Exception "DataFrame has no usable column")
                    eq_refl eq_refl eq_refl eq_refl eq_refl eq_refl)).
  - split; [reflexivity|].
    apply (proj1 (proj2 (failed_action_outcome Demo.env Demo.u_adult))
             (Exception "HTTP Error 404: Not Found"));
      [cbn; discriminate|reflexivity|reflexivity].
  - split; [reflexivity|].
    exact (proj2 (proj2 (proj2 (failed_action_outcome Demo.env
                                  Demo.u_iris_bad_upload))
                    Demo.bad_csv
                    (Exception
                       "Error tokenizing data. C error: Expected 2 fields in line 3, saw 3")
                    (Some Demo.iris_df) eq_refl eq_refl eq_refl eq_refl)).
Defined.

(** ** Export file names *)

(** Every download button of a run is one of the two export buttons, named
    after the select box's value. *)
Lemma download_buttons_of_run
    (env : Env) (u : UserInput) (label data file_name mime : string) :
  In (St_download_button label data file_name mime) (trace (script env u)) ->
  St_download_button label data file_name mime = html_button (selected_builtin u) data \/
  St_download_button label data file_name mime = pdf_button (selected_builtin u) data.
Proof.
  intros Hin.
  apply in_report_block in Hin as (d & _ & _ & _ & _ & H); try reflexivity.
  rewrite generate_report_trace in H.
  destruct H as [H|H]; [discriminate|].
  apply in_app_or in H as [H|H].
  - apply profiling_calls_spec in H. discriminate.
  - destruct (report_html env d) as [h|[m|m]];
      [|destruct H as [H|[]]; discriminate|contradiction].
    destruct H as [H|[H|[H|H]]]; try discriminate.
    + left. rewrite <- H. unfold html_button in *. congruence.
    + destruct (pdfkit_from_string env h false) as [b|[m|m]].
      * destruct (String.eqb b ""); [contradiction|].
        destruct H as [H|[]]. right. rewrite <- H.
        unfold pdf_button in *. congruence.
      * destruct H as [H|[]]. discriminate.
      * contradiction.
Qed.

(** The select box never returns the empty string, so [or] never falls
    through to ['uploaded_data']. *)
Lemma fallback_label_unused (u : UserInput) (suffix : string) :
  export_name (selected_builtin u) suffix = selected_builtin u ++ suffix.
Proof.
  unfold export_name, selected_builtin.
  destruct (pick u) as [|[|[|[|[|[|[|[|n]]]]]]]]; try reflexivity.
  cbn. destruct n; reflexivity.
Qed.

(** C6, on the code: when no built-in is chosen (the select box holds
    ["-- none --"]) and a report is generated from an upload, the exports
    are named ["-- none --_profiling.html"] and ["-- none --_profiling.pdf"],
    not after ['uploaded_data']. *)
Theorem upload_export_file_name
    (env : Env) (u : UserInput) (label data file_name mime : string) :
  selected_builtin u = none_option ->
  In (St_download_button label data file_name mime) (trace (script env u)) ->
  (mime = "text/html" /\ file_name = "-- none --_profiling.html") \/
  (mime = "application/pdf" /\ file_name = "-- none --_profiling.pdf").
Proof.
  intros Hsel Hin.
  apply download_buttons_of_run in Hin. rewrite Hsel in Hin.
  destruct Hin as [H|H]; inversion H; [left|right]; split; reflexivity.
Qed.

Lemma upload_export_file_name_witness :
  selected_builtin Demo.u_upload_report = none_option /\
  uploaded_file Demo.u_upload_report = Some Demo.good_csv /\
  In (St_download_button "📥 Download HTML" Demo.html_doc
        "-- none --_profiling.html" "text/html")
     (trace (script Demo.env_pdf Demo.u_upload_report)) /\
  (("text/html" = "text/html" /\
    "-- none --_profiling.html" = "-- none --_profiling.html") \/
   ("text/html" = "application/pdf" /\
    "-- none --_profiling.html" = "-- none --_profiling.pdf")) /\
  "-- none --_profiling.html" <> "uploaded_data_profiling.html".
Proof.
  split; [reflexivity|]. split; [reflexivity|].
  assert (Hin : In (St_download_button "📥 Download HTML" Demo.html_doc
                      "-- none --_profiling.html" "text/html")
                   (trace (script Demo.env_pdf Demo.u_upload_report))).
  { cbn. do 17 right. left. reflexivity. }
  split; [exact Hin|]. split; [|discriminate].
  exact (upload_export_file_name Demo.env_pdf Demo.u_upload_report
           _ _ _ _ eq_refl Hin).
Defined.

(** ** Upload formats *)

Lemma length_append (a b : string) :
  String.length (a ++ b) = String.length a + String.length b.
Proof. induction a as [|c a IH]; cbn; [reflexivity|]. rewrite IH. reflexivity. Qed.

Lemma substring_all (s : string) : substring 0 (String.length s) s = s.
Proof. induction s as [|c s IH]; cbn; [reflexivity|]. rewrite IH. reflexivity. Qed.

Lemma substring_split (s : string) (n : nat) :
  n <= String.length s ->
  s = substring 0 n s ++ substring n (String.length s - n) s.
Proof.
  revert s. induction n as [|n IH]; intros s Hn.
  - rewrite Nat.sub_0_r, substring_all. destruct s; reflexivity.
  - destruct s as [|c s]; cbn in Hn; [lia|].
    cbn. f_equal. apply IH. lia.
Qed.

(** [endswith] holds exactly for the strings of the form [pre ++ suffix]. *)
Lemma endswith_inv (s suffix : string) :
  endswith s suffix = true -> exists pre, s = pre ++ suffix.
Proof.
  unfold endswith. intros H. apply andb_true_iff in H as [Hl He].
  apply Nat.leb_le in Hl. apply String.eqb_eq in He.
  exists (substring 0 (String.length s - String.length suffix) s).
  pose proof (substring_split s (String.length s - String.length suffix))
    as Hs.
  replace (String.length s - (String.length s - String.length suffix))
    with (String.length suffix) in Hs by lia.
  rewrite He in Hs. apply Hs. lia.
Qed.

Lemma append_same_length (p a q b : string) :
  p ++ a = q ++ b -> String.length a = String.length b -> a = b.
Proof.
  revert q. induction p as [|c p IH]; intros [|c' q] H Hl; cbn in H.
  - exact H.
  - apply (f_equal String.length) in H. cbn in H. rewrite length_append in H. lia.
  - apply (f_equal String.length) in H. cbn in H. rewrite length_append in H. lia.
  - injection H as _ H. exact (IH _ H Hl).
Qed.

Lemma append_one_longer (p a q b : string) :
  p ++ a = q ++ b -> String.length b = S (String.length a) ->
  exists c, b = String c a.
Proof.
  revert q. induction p as [|c p IH]; intros [|c' q] H Hl; cbn in H.
  - subst. lia.
  - apply (f_equal String.length) in H. cbn in H. rewrite length_append in H. lia.
  - destruct p as [|c2 p].
    + exists c. symmetry. exact H.
    + apply (f_equal String.length) in H. cbn in H. rewrite length_append in H. lia.
  - injection H as _ H. exact (IH _ H Hl).
Qed.

(** What the uploader of the script lets through. *)
Lemma accepts_upload_types (f : UploadedFile) :
  accepts upload_types f =
  endswith (lower (name f)) ".csv" || endswith (lower (name f)) ".xlsx".
Proof. unfold accepts, upload_types. cbn. rewrite orb_false_r. reflexivity. Qed.

(** The accepted formats are [.csv] and [.xlsx], and no other. *)
Lemma accepted_formats (f : UploadedFile) :
  accepts upload_types f = true <->
  endswith (lower (name f)) ".csv" = true \/
  endswith (lower (name f)) ".xlsx" = true.
Proof. rewrite accepts_upload_types. apply orb_true_iff. Qed.

(** Dispatch on the name: [.csv], in lower case, goes to [pd.read_csv],
    every other file to [pd.read_excel]; it is the first thing
    [read_uploaded_file] does. *)
Lemma read_uploaded_file_dispatch (env : Env) (f : UploadedFile) :
  exists rest,
    trace (read_uploaded_file env f) =
    (if endswith (name f) ".csv" then Lib_read_csv f else Lib_read_excel f) :: rest.
Proof.
  rewrite read_uploaded_file_run. fold (pandas_call f).
  destruct (pandas_read env f) as [d|[m|m]]; eexists; reflexivity.
Qed.

(** C5, on the code: the uploader is created with [type=["csv", "xlsx"]].
    A file whose name ends in [.xls] is refused by it: the script sees no
    upload and pandas is never called. *)
Theorem xls_upload_refused (env : Env) (u : UserInput) (f : UploadedFile) :
  dropped u = Some f ->
  endswith (lower (name f)) ".xls" = true ->
  accepts upload_types f = false /\
  uploaded_file u = None /\
  existsb is_pandas_call (trace (script env u)) = false.
Proof.
  intros Hd Hx.
  assert (Ha : accepts upload_types f = false).
  { rewrite accepts_upload_types.
    apply endswith_inv in Hx as [p Hp].
    apply orb_false_iff. split.
    - destruct (endswith (lower (name f)) ".csv") eqn:E; [|reflexivity].
      apply endswith_inv in E as [q Hq]. rewrite Hp in Hq.
      apply append_same_length in Hq; [discriminate|reflexivity].
    - destruct (endswith (lower (name f)) ".xlsx") eqn:E; [|reflexivity].
      apply endswith_inv in E as [q Hq]. rewrite Hp in Hq.
      apply append_one_longer in Hq as [c Hc]; [discriminate|reflexivity]. }
  assert (Hu : uploaded_file u = None).
  { unfold uploaded_file. rewrite Hd, Ha. reflexivity. }
  split; [exact Ha|]. split; [exact Hu|].
  rewrite trace_script, trace_load_data, Hu, !existsb_app.
  replace (existsb is_pandas_call page_header) with false by reflexivity.
  rewrite (forallb_existsb_false is_builtin_event is_pandas_call _
             (load_builtin_events _ _ _))
    by (intros []; cbn; congruence).
  cbn [orb].
  assert (Hl : existsb is_pandas_call
                 match value (load_builtin env (selected_builtin u) None) with
                 | Ret df0 => trace (load_upload env None df0)
                 | Raise _ => []
                 end = false).
  { destruct (value (load_builtin env (selected_builtin u) None)); reflexivity. }
  rewrite Hl. cbn [orb].
  destruct (value (load_data env u)) as [df|e]; [|reflexivity].
  apply (forallb_existsb_false is_preview_event);
    [apply preview_events|intros []; cbn; congruence].
Qed.

Lemma xls_upload_refused_witness :
  dropped Demo.u_old_xls = Some Demo.old_xls /\
  endswith (lower (name Demo.old_xls)) ".xls" = true /\
  accepts upload_types Demo.old_xls = false /\
  uploaded_file Demo.u_old_xls = None /\
  existsb is_pandas_call (trace (script Demo.env Demo.u_old_xls)) = false.
Proof.
  split; [reflexivity|]. split; [reflexivity|].
  exact (xls_upload_refused Demo.env Demo.u_old_xls Demo.old_xls eq_refl eq_refl).
Defined.

(** The uploader compares in lower case, [endswith] does not: a CSV file
    named in capitals is accepted and handed to [pd.read_excel]. *)
Lemma capitals_csv_read_as_excel :
  accepts upload_types Demo.capitals_csv = true /\
  pandas_call Demo.capitals_csv = Lib_read_excel Demo.capitals_csv.
Proof. split; reflexivity. Qed.

(** ** The whole run *)

Lemma preview_filter_nil (env : Env) (sel : string) (df : option DataFrame)
    (pressed : bool) (P : event -> bool) :
  (forall ev, is_preview_event ev = true -> P ev = false) ->
  filter P (trace (preview env sel df pressed)) = [].
Proof. apply forallb_filter_nil, preview_events. Qed.

Lemma selected_builtin_option (u : UserInput) :
  In (selected_builtin u) (none_option :: builtin_ds).
Proof.
  unfold selected_builtin.
  destruct (pick u) as [|[|[|[|[|[|[|[|n]]]]]]]];
    try (cbn; auto 10; fail).
  destruct n; cbn; auto.
Qed.

(** X1: in a run whose loading blocks return, [st.dataframe] is called
    exactly when [df] is set and not empty, and the start hint is shown
    exactly otherwise, never both; without data the run ends normally, in
    [Idle]. *)
Theorem preview_or_hint (env : Env) (u : UserInput) (df : option DataFrame) :
  value (load_data env u) = Ret df ->
  existsb is_dataframe (trace (script env u)) = has_data df /\
  existsb is_info (trace (script env u)) = negb (has_data df) /\
  (has_data df = false ->
   value (script env u) = Ret df /\ shell_state (script env u) = Some Idle).
Proof.
  intros Hl.
  rewrite !existsb_script by (intros []; cbn; congruence).
  rewrite Hl, preview_trace.
  assert (Hr : forall d, existsb is_info
                 match st_dataframe env (head 10 d) with
                 | Ret _ =>
                     St_button "Generate Profiling Report" ::
                     (if clicked u
                      then trace (generate_report env (selected_builtin u) d)
                      else [])
                 | Raise _ => []
                 end = false).
  { intros d. destruct (st_dataframe env (head 10 d)); [|reflexivity].
    cbn [existsb is_info orb]. destruct (clicked u); [|reflexivity].
    apply (forallb_existsb_false is_report_event);
      [apply generate_report_events|intros []; cbn; congruence]. }
  destruct df as [d|]; unfold has_data.
  - destruct (empty d) eqn:He; cbn [existsb is_dataframe is_info orb negb].
    + repeat split.
      * apply run_ends with (1 := Hl). rewrite preview_value, He. reflexivity.
      * unfold shell_state.
        rewrite (run_ends _ _ _ Hl) by (rewrite preview_value, He; reflexivity).
        rewrite He. reflexivity.
    + rewrite Hr. repeat split; discriminate.
  - repeat split.
    + apply run_ends with (1 := Hl). reflexivity.
    + unfold shell_state.
      rewrite (run_ends _ _ _ Hl) by reflexivity. reflexivity.
Qed.

Lemma preview_or_hint_witness :
  value (load_data Demo.env Demo.u_iris_header_only) = Ret (Some Demo.header_only_df) /\
  has_data (Some Demo.header_only_df) = false /\
  existsb is_dataframe (trace (script Demo.env Demo.u_iris_header_only)) = false /\
  existsb is_info (trace (script Demo.env Demo.u_iris_header_only)) = true /\
  shell_state (script Demo.env Demo.u_iris_header_only) = Some Idle.
Proof.
  split; [reflexivity|]. split; [reflexivity|].
  destruct (preview_or_hint Demo.env Demo.u_iris_header_only
              (Some Demo.header_only_df) eq_refl) as (Hd & Hi & Hs).
  split; [exact Hd|]. split; [exact Hi|]. exact (proj2 (Hs eq_refl)).
Defined.

(** X2: in a run whose loading blocks return, the button is drawn exactly
    when there is data and [st.dataframe] returned on its first ten rows,
    and the report block (spinner, ydata-profiling, pdfkit, download
    buttons, warning) runs exactly when, in addition, the button was
    pressed. *)
Theorem report_only_on_click (env : Env) (u : UserInput) (df : option DataFrame) :
  value (load_data env u) = Ret df ->
  existsb is_button (trace (script env u)) = button_reached env df /\
  existsb is_report_activity (trace (script env u)) =
    button_reached env df && clicked u.
Proof.
  intros Hl.
  rewrite !existsb_script by (intros []; cbn; congruence).
  rewrite Hl, preview_trace. unfold button_reached.
  destruct df as [d|]; [|split; reflexivity].
  destruct (empty d); [split; reflexivity|].
  cbn [existsb is_button is_report_activity orb negb andb].
  destruct (st_dataframe env (head 10 d)); [|split; reflexivity].
  cbn [existsb is_button is_report_activity orb negb andb is_raise].
  split; [reflexivity|].
  destruct (clicked u); [|reflexivity].
  rewrite generate_report_trace. reflexivity.
Qed.

Lemma report_only_on_click_witness :
  value (load_data Demo.env Demo.u_iris) = Ret (Some Demo.iris_df) /\
  button_reached Demo.env (Some Demo.iris_df) = true /\
  existsb is_button (trace (script Demo.env Demo.u_iris)) = true /\
  existsb is_report_activity (trace (script Demo.env Demo.u_iris)) = false.
Proof.
  split; [reflexivity|]. split; [reflexivity|].
  exact (report_only_on_click Demo.env Demo.u_iris (Some Demo.iris_df) eq_refl).
Defined.

(** X3: how a run ends, for every input and every behaviour of the
    libraries.  It ends with an uncaught exception when a loading block,
    [st.dataframe], a profiling step or pdfkit raises one that no handler
    catches; otherwise in [Idle] without a non-empty dataset, in
    [Profiled] when the button was pressed and the report's HTML was
    obtained, and in [Loaded] in the remaining cases. *)
Theorem shell_state_of_run (env : Env) (u : UserInput) :
  shell_state (script env u) =
  match value (load_data env u) with
  | Raise _ => None
  | Ret None => Some Idle
  | Ret (Some d) =>
      if empty d then Some Idle
      else match st_dataframe env (head 10 d) with
           | Raise _ => None
           | Ret _ =>
               if clicked u then
                 match report_html env d with
                 | Ret html =>
                     if interrupted (pdfkit_from_string env html false)
                     then None else Some (Profiled d)
                 | Raise e =>
                     if isinstance_Exception e then Some (Loaded d) else None
                 end
               else Some (Loaded d)
           end
  end.
Proof.
  unfold shell_state.
  rewrite (existsb_script _ _ _ setup_not_html_export), value_script.
  destruct (value (load_data env u)) as [[d|]|e]; try reflexivity.
  rewrite preview_value, preview_trace.
  destruct (empty d) eqn:He; [cbv beta iota; rewrite He; reflexivity|].
  destruct (st_dataframe env (head 10 d)) as [[]|e]; [|reflexivity].
  destruct (clicked u); [|cbv beta iota; rewrite He; reflexivity].
  rewrite generate_report_value, generate_report_trace.
  cbn [existsb is_html_export orb]. rewrite existsb_app.
  destruct (profiling_calls_events env d is_html_export) as [_ ->];
    try reflexivity.
  destruct (report_html env d) as [html|[m|m]];
    [|cbv beta iota; cbn [isinstance_Exception]; rewrite ?He; reflexivity..].
  destruct (pdfkit_from_string env html false) as [b|[m|m]];
    cbv beta iota; cbn [isinstance_Exception interrupted negb];
    rewrite ?He; reflexivity.
Qed.

(** ** Calls made while loading *)

(** X4: the only sample fetch of a run is [get_data(selected_builtin,
    profile=False)], made once when the select box holds a sample name,
    also when an upload then replaces the sample, and not at all when it
    holds ["-- none --"]; the name is always one of the box's options. *)
Theorem get_data_calls (env : Env) (u : UserInput) :
  filter is_get_data (trace (script env u)) =
    (if String.eqb (selected_builtin u) none_option then []
     else [Lib_get_data (selected_builtin u) false]) /\
  In (selected_builtin u) (none_option :: builtin_ds).
Proof.
  split; [|apply selected_builtin_option].
  rewrite filter_script, trace_load_data, filter_app.
  assert (Hu : filter is_get_data
                 match value (load_builtin env (selected_builtin u) None) with
                 | Ret df0 => trace (load_upload env (uploaded_file u) df0)
                 | Raise _ => []
                 end = []).
  { destruct (value (load_builtin env (selected_builtin u) None));
      [|reflexivity].
    apply (forallb_filter_nil is_upload_event);
      [apply load_upload_events|intros []; cbn; congruence]. }
  assert (Hp : match value (load_data env u) with
               | Ret df =>
                   filter is_get_data
                     (trace (preview env (selected_builtin u) df (clicked u)))
               | Raise _ => []
               end = []).
  { destruct (value (load_data env u)); [|reflexivity].
    apply preview_filter_nil. intros []; cbn; congruence. }
  rewrite Hu, Hp, !app_nil_r.
  replace (filter is_get_data page_header) with (@nil event) by reflexivity.
  rewrite load_builtin_run.
  destruct (String.eqb (selected_builtin u) none_option); [reflexivity|].
  destruct (get_data env (selected_builtin u) false) as [d|[m|m]]; reflexivity.
Qed.

(** X5: once the built-in block has returned, pandas is called once in a
    run that has an upload, on that file, with [read_csv] when the name
    ends in [.csv] and [read_excel] otherwise, and never in a run without
    upload; when the built-in block ends the run, pandas is not called. *)
Theorem pandas_calls (env : Env) (u : UserInput) :
  filter is_pandas_call (trace (script env u)) =
  match value (load_builtin env (selected_builtin u) None) with
  | Ret _ =>
      match uploaded_file u with
      | Some f =>
          [if endswith (name f) ".csv" then Lib_read_csv f else Lib_read_excel f]
      | None => []
      end
  | Raise _ => []
  end.
Proof.
  rewrite filter_script, trace_load_data, filter_app.
  rewrite (forallb_filter_nil is_builtin_event is_pandas_call _
             (load_builtin_events _ _ _))
    by (intros []; cbn; congruence).
  assert (Hp : match value (load_data env u) with
               | Ret df =>
                   filter is_pandas_call
                     (trace (preview env (selected_builtin u) df (clicked u)))
               | Raise _ => []
               end = []).
  { destruct (value (load_data env u)); [|reflexivity].
    apply preview_filter_nil. intros []; cbn; congruence. }
  rewrite Hp, app_nil_r.
  replace (filter is_pandas_call page_header) with (@nil event) by reflexivity.
  cbn [app].
  destruct (value (load_builtin env (selected_builtin u) None)) as [df0|e];
    [|reflexivity].
  rewrite load_upload_run.
  destruct (uploaded_file u) as [f|]; [|reflexivity].
  unfold pandas_call.
  destruct (pandas_read env f) as [d|[m|m]];
    [destruct (empty d)| |]; destruct (endswith (name f) ".csv"); reflexivity.
Qed.

(** X6: [st.set_page_config] is the first call of every run and is made
    once. *)
Theorem set_page_config_first_once (env : Env) (u : UserInput) :
  (exists rest,
     trace (script env u) =
     St_set_page_config "PyCaret Data Explorer" "wide" "expanded" :: rest) /\
  filter is_page_config (trace (script env u)) =
    [St_set_page_config "PyCaret Data Explorer" "wide" "expanded"].
Proof.
  split.
  - rewrite trace_script. eexists. reflexivity.
  - rewrite filter_script.
    assert (Hl : filter is_page_config (trace (load_data env u)) = []).
    { rewrite trace_load_data, filter_app.
      rewrite (forallb_filter_nil is_builtin_event is_page_config _
                 (load_builtin_events _ _ _))
        by (intros []; cbn; congruence).
      destruct (value (load_builtin env (selected_builtin u) None));
        [|reflexivity].
      apply (forallb_filter_nil is_upload_event);
        [apply load_upload_events|intros []; cbn; congruence]. }
    rewrite Hl.
    destruct (value (load_data env u)); [|reflexivity].
    rewrite preview_filter_nil by (intros []; cbn; congruence).
    reflexivity.
Qed.

(** X7: with ["-- none --"] in the select box and no upload (the page as
    first opened, or after the uploader refused a file), the run calls no
    library at all and shows the page header and the start hint, whatever
    the button state. *)
Theorem fresh_page (env : Env) (u : UserInput) :
  selected_builtin u = none_option ->
  uploaded_file u = None ->
  script env u = (Ret None, (page_header ++ [St_info start_hint])%list).
Proof.
  intros Hs Hu.
  assert (Hl : load_data env u = (Ret None, [])).
  { rewrite load_data_run, load_builtin_run, Hs, Hu. reflexivity. }
  rewrite script_run, Hl. reflexivity.
Qed.

Lemma fresh_page_witness :
  selected_builtin Demo.u_old_xls = none_option /\
  uploaded_file Demo.u_old_xls = None /\
  script Demo.env Demo.u_old_xls =
    (Ret None, (page_header ++ [St_info start_hint])%list).
Proof.
  split; [reflexivity|]. split; [reflexivity|].
  exact (fresh_page Demo.env Demo.u_old_xls eq_refl eq_refl).
Defined.

(** X9: an upload that pandas parses into an empty frame (a header line and
    no data line) gets neither the success message nor an error: the upload
    block only calls pandas.  The empty frame still replaces whatever the
    built-in block loaded, so the run shows the start hint and no table,
    in [Idle]. *)
Theorem empty_upload_shows_only_hint
    (env : Env) (u : UserInput) (f : UploadedFile) (d : DataFrame)
    (df0 : option DataFrame) :
  uploaded_file u = Some f ->
  pandas_read env f = Ret d ->
  empty d = true ->
  value (load_builtin env (selected_builtin u) None) = Ret df0 ->
  trace (load_upload env (uploaded_file u) df0) =
    [if endswith (name f) ".csv" then Lib_read_csv f else Lib_read_excel f] /\
  active_df (script env u) = Some d /\
  In (St_info start_hint) (trace (script env u)) /\
  existsb is_dataframe (trace (script env u)) = false /\
  shell_state (script env u) = Some Idle.
Proof.
  intros Hf Hp He Hb.
  assert (Hl : value (load_data env u) = Ret (Some d)).
  { rewrite (load_data_upload env u f df0 Hf Hb), Hp. reflexivity. }
  assert (Hv : value (script env u) = Ret (Some d)).
  { apply run_ends with (1 := Hl). rewrite preview_value, He. reflexivity. }
  split; [rewrite Hf, load_upload_run, Hp, He; reflexivity|].
  split; [unfold active_df; rewrite Hv; reflexivity|].
  split; [apply (in_script_from_preview env u (Some d) _ Hl);
          rewrite preview_trace, He; left; reflexivity|].
  split.
  - rewrite existsb_script by (intros []; cbn; congruence).
    rewrite Hl, preview_trace, He. reflexivity.
  - unfold shell_state. rewrite Hv, He. reflexivity.
Qed.

Lemma empty_upload_shows_only_hint_witness :
  uploaded_file Demo.u_iris_header_only = Some Demo.header_only_csv /\
  pandas_read Demo.env Demo.header_only_csv = Ret Demo.header_only_df /\
  empty Demo.header_only_df = true /\
  value (load_builtin Demo.env (selected_builtin Demo.u_iris_header_only) None)
    = Ret (Some Demo.iris_df) /\
  active_df (script Demo.env Demo.u_iris_header_only)
    = Some Demo.header_only_df /\
  shell_state (script Demo.env Demo.u_iris_header_only) = Some Idle.
Proof.
  split; [reflexivity|]. split; [reflexivity|]. split; [reflexivity|].
  split; [reflexivity|].
  destruct (empty_upload_shows_only_hint Demo.env
              Demo.u_iris_header_only Demo.header_only_csv
              Demo.header_only_df (Some Demo.iris_df)
              eq_refl eq_refl eq_refl eq_refl)
    as (_ & Hd & _ & _ & Hs).
  split; assumption.
Defined.

(** X10: when a sample is fetched and an upload with data replaces it in
    the same run, the page carries both success messages, the one naming
    the sample and the one for the upload, while the frame the preview
    guard finds, and the only one handed to [st.dataframe], is the
    upload's. *)
Theorem both_success_messages
    (env : Env) (u : UserInput) (d0 d : DataFrame) (f : UploadedFile) :
  selected_builtin u <> none_option ->
  get_data env (selected_builtin u) false = Ret d0 ->
  uploaded_file u = Some f ->
  pandas_read env f = Ret d ->
  empty d = false ->
  In (St_success (builtin_success (selected_builtin u))) (trace (script env u)) /\
  In (St_success upload_success) (trace (script env u)) /\
  value (load_data env u) = Ret (Some d) /\
  filter is_dataframe (trace (script env u)) = [St_dataframe (head 10 d) true].
Proof.
  intros Hs Hg Hf Hp He. apply String.eqb_neq in Hs.
  assert (Hb : load_builtin env (selected_builtin u) None =
               (Ret (Some d0),
                [Lib_get_data (selected_builtin u) false;
                 St_success (builtin_success (selected_builtin u))])).
  { rewrite load_builtin_run, Hs, Hg. reflexivity. }
  assert (Hl : value (load_data env u) = Ret (Some d)).
  { rewrite (load_data_upload env u f (Some d0) Hf), Hp;
      [reflexivity|rewrite Hb; reflexivity]. }
  repeat split.
  - apply in_script_load. rewrite trace_load_data, Hb.
    right. left. reflexivity.
  - apply in_script_load. rewrite trace_load_data, Hb.
    apply in_or_app. right. unfold value. cbn [fst].
    rewrite Hf, load_upload_run, Hp, He. right. left. reflexivity.
  - exact Hl.
  - exact (dataframe_calls env u d Hl He).
Qed.

Lemma both_success_messages_witness :
  selected_builtin Demo.u_both <> none_option /\
  get_data Demo.env (selected_builtin Demo.u_both) false = Ret Demo.iris_df /\
  uploaded_file Demo.u_both = Some Demo.good_csv /\
  pandas_read Demo.env Demo.good_csv = Ret Demo.small_df /\
  In (St_success "✅ Loaded **iris** dataset.") (trace (script Demo.env Demo.u_both)) /\
  In (St_success "✅ Uploaded data loaded.") (trace (script Demo.env Demo.u_both)) /\
  value (load_data Demo.env Demo.u_both) = Ret (Some Demo.small_df).
Proof.
  assert (Hs : selected_builtin Demo.u_both <> none_option)
    by (cbn; discriminate).
  split; [exact Hs|]. split; [reflexivity|]. split; [reflexivity|].
  split; [reflexivity|].
  destruct (both_success_messages Demo.env Demo.u_both Demo.iris_df
              Demo.small_df Demo.good_csv Hs eq_refl eq_refl eq_refl eq_refl)
    as (H1 & H2 & H3 & _).
  repeat split; assumption.
Defined.

(** X11: for a file whose name ends in [.xlsx] or [.xls],
    [read_uploaded_file] makes one call to pandas, [pd.read_excel] on that
    file, and none to [pd.read_csv]. *)
Theorem excel_names_go_to_read_excel
    (env : Env) (f : UploadedFile) (ext : string) :
  In ext [".xlsx"; ".xls"] ->
  endswith (name f) ext = true ->
  pandas_read env f = read_excel env f /\
  filter is_pandas_call (trace (read_uploaded_file env f)) = [Lib_read_excel f].
Proof.
  intros Hext Hx.
  assert (Hc : endswith (name f) ".csv" = false).
  { destruct (endswith (name f) ".csv") eqn:E; [|reflexivity].
    apply endswith_inv in E as [q Hq]. apply endswith_inv in Hx as [p Hp].
    rewrite Hp in Hq. destruct Hext as [<-|[<-|[]]].
    - symmetry in Hq.
      apply append_one_longer in Hq as [c Hc]; [discriminate|reflexivity].
    - apply append_same_length in Hq; [discriminate|reflexivity]. }
  split.
  - unfold pandas_read. rewrite Hc. reflexivity.
  - rewrite read_uploaded_file_run. unfold pandas_call. rewrite Hc.
    destruct (pandas_read env f) as [d|[m|m]]; reflexivity.
Qed.

Lemma excel_names_go_to_read_excel_witness :
  In ".xlsx" [".xlsx"; ".xls"] /\
  endswith (name Demo.renamed_xlsx) ".xlsx" = true /\
  pandas_read Demo.env Demo.renamed_xlsx = read_excel Demo.env Demo.renamed_xlsx /\
  filter is_pandas_call (trace (read_uploaded_file Demo.env Demo.renamed_xlsx))
    = [Lib_read_excel Demo.renamed_xlsx].
Proof.
  assert (Hin : In ".xlsx" [".xlsx"; ".xls"]) by (left; reflexivity).
  split; [exact Hin|]. split; [reflexivity|].
  exact (excel_names_go_to_read_excel Demo.env Demo.renamed_xlsx ".xlsx"
           Hin eq_refl).
Defined.

(** ** Exports, errors and warnings of a run *)

(** X12: a PDF download button is only ever on the page together with the
    HTML download button, and its payload is what pdfkit returned, not
    empty, for exactly the HTML string the other button offers. *)
Theorem pdf_export_comes_from_html_export
    (env : Env) (u : UserInput) (label data file_name : string) :
  In (St_download_button label data file_name "application/pdf")
     (trace (script env u)) ->
  exists d html,
    active_df (script env u) = Some d /\
    report_html env d = Ret html /\
    pdfkit_from_string env html false = Ret data /\
    data <> "" /\
    In (html_button (selected_builtin u) html) (trace (script env u)).
Proof.
  intros Hin.
  apply in_report_block in Hin as (d & Hl & He & Hs & Hc & Hin);
    try reflexivity.
  exists d.
  pose proof (report_block_in_script env u d) as Hback.
  specialize (fun ev => Hback ev Hl He Hs Hc).
  assert (Hv : value (generate_report env (selected_builtin u) d) = Ret tt ->
               active_df (script env u) = Some d).
  { intros Hg. unfold active_df.
    rewrite (run_ends _ _ _ Hl); [reflexivity|].
    rewrite preview_value, He, Hs, Hc. exact Hg. }
  rewrite generate_report_value in Hv.
  rewrite generate_report_trace in Hin, Hback.
  destruct Hin as [H|Hin]; [discriminate|].
  apply in_app_or in Hin as [Hin|Hin];
    [apply profiling_calls_spec in Hin; discriminate|].
  destruct (report_html env d) as [html|[m|m]];
    [|destruct Hin as [H|[]]; discriminate|contradiction].
  exists html.
  destruct Hin as [H|[H|[H|Hin]]]; try discriminate.
  destruct (pdfkit_from_string env html false) as [b|[m|m]];
    [|destruct Hin as [H|[]]; discriminate|contradiction].
  destruct (String.eqb b "") eqn:Eb; [contradiction|].
  destruct Hin as [H|[]]. unfold pdf_button in H. injection H as _ Hb _.
  subst b. apply String.eqb_neq in Eb.
  split; [exact (Hv eq_refl)|]. repeat split; try assumption.
  apply Hback. right. apply in_or_app. right. right. left. reflexivity.
Qed.

Lemma pdf_export_comes_from_html_export_witness :
  In (St_download_button "📥 Download PDF" ("%PDF-1.4 " ++ Demo.html_doc)
        "iris_profiling.pdf" "application/pdf")
     (trace (script Demo.env_pdf Demo.u_iris_report)) /\
  exists d html,
    active_df (script Demo.env_pdf Demo.u_iris_report) = Some d /\
    report_html Demo.env_pdf d = Ret html /\
    pdfkit_from_string Demo.env_pdf html false = Ret ("%PDF-1.4 " ++ Demo.html_doc) /\
    "%PDF-1.4 " ++ Demo.html_doc <> "" /\
    In (html_button (selected_builtin Demo.u_iris_report) html)
       (trace (script Demo.env_pdf Demo.u_iris_report)).
Proof.
  assert (Hin : In (St_download_button "📥 Download PDF"
                      ("%PDF-1.4 " ++ Demo.html_doc)
                      "iris_profiling.pdf" "application/pdf")
                   (trace (script Demo.env_pdf Demo.u_iris_report))).
  { cbn. do 19 right. left. reflexivity. }
  split; [exact Hin|].
  exact (pdf_export_comes_from_html_export Demo.env_pdf Demo.u_iris_report
           _ _ _ Hin).
Defined.

(** X13: when pdfkit returns empty bytes without raising, the PDF button is
    left out silently: the run shows the HTML button, no PDF button, no
    warning, no error from the report block, and ends in [Profiled]. *)
Theorem empty_pdf_is_silent
    (env : Env) (u : UserInput) (d : DataFrame) (html : string) :
  value (load_data env u) = Ret (Some d) ->
  empty d = false ->
  st_dataframe env (head 10 d) = Ret tt ->
  clicked u = true ->
  report_html env d = Ret html ->
  pdfkit_from_string env html false = Ret "" ->
  In (html_button (selected_builtin u) html) (trace (script env u)) /\
  existsb is_pdf_export (trace (script env u)) = false /\
  existsb is_warning (trace (script env u)) = false /\
  existsb is_error (trace (generate_report env (selected_builtin u) d)) = false /\
  shell_state (script env u) = Some (Profiled d).
Proof.
  intros Hl He Hs Hc Hh Hp.
  assert (Hg : trace (generate_report env (selected_builtin u) d) =
               [St_spinner "Creating the profile…";
                Lib_ProfileReport (profile_of d);
                Lib_st_profile_report (profile_of d);
                Lib_to_html (profile_of d);
                St_columns 2; html_button (selected_builtin u) html;
                Lib_pdfkit_from_string html false]).
  { rewrite generate_report_trace, Hh, Hp, (profiling_calls_complete _ _ _ Hh).
    reflexivity. }
  assert (Hprev : trace (preview env (selected_builtin u) (Some d) (clicked u))
                  = St_subheader "📋 Data Preview" ::
                    St_dataframe (head 10 d) true ::
                    St_button "Generate Profiling Report" ::
                    trace (generate_report env (selected_builtin u) d)).
  { rewrite (preview_active _ _ _ _ He Hs), Hc. reflexivity. }
  rewrite Hg in Hprev.
  assert (Hv : value (script env u) = Ret (Some d)).
  { apply run_ends with (1 := Hl).
    rewrite preview_value, He, Hs, Hc, generate_report_value, Hh, Hp.
    reflexivity. }
  split; [apply (in_script_from_preview env u (Some d) _ Hl); rewrite Hprev;
          do 8 right; left; reflexivity|].
  split; [rewrite existsb_script by (intros []; cbn; congruence);
          rewrite Hl, Hprev; reflexivity|].
  split; [rewrite existsb_script by (intros []; cbn; congruence);
          rewrite Hl, Hprev; reflexivity|].
  split; [rewrite Hg; reflexivity|].
  unfold shell_state. rewrite Hv, He.
  rewrite (existsb_script _ _ _ setup_not_html_export), Hl, Hprev. reflexivity.
Qed.

Lemma empty_pdf_is_silent_witness :
  value (load_data Demo.env_blank_pdf Demo.u_iris_report) = Ret (Some Demo.iris_df) /\
  st_dataframe Demo.env_blank_pdf (head 10 Demo.iris_df) = Ret tt /\
  report_html Demo.env_blank_pdf Demo.iris_df = Ret Demo.html_doc /\
  pdfkit_from_string Demo.env_blank_pdf Demo.html_doc false = Ret "" /\
  existsb is_pdf_export (trace (script Demo.env_blank_pdf Demo.u_iris_report)) = false /\
  existsb is_warning (trace (script Demo.env_blank_pdf Demo.u_iris_report)) = false /\
  shell_state (script Demo.env_blank_pdf Demo.u_iris_report)
    = Some (Profiled Demo.iris_df).
Proof.
  split; [reflexivity|]. split; [reflexivity|]. split; [reflexivity|].
  split; [reflexivity|].
  destruct (empty_pdf_is_silent Demo.env_blank_pdf Demo.u_iris_report
              Demo.iris_df Demo.html_doc
              eq_refl eq_refl eq_refl eq_refl eq_refl eq_refl)
    as (_ & Hp & Hw & _ & Hs).
  repeat split; assumption.
Defined.

(** X14: when the report's HTML is obtained and pdfkit returns bytes that
    are not empty, the report block does exactly this, in order: spinner,
    construct, render, serialise, columns, HTML button with the HTML
    string, pdfkit on that string, PDF button with pdfkit's bytes; the run
    shows no warning and ends in [Profiled]. *)
Theorem report_success_offers_both_exports
    (env : Env) (u : UserInput) (d : DataFrame) (html b : string) :
  value (load_data env u) = Ret (Some d) ->
  empty d = false ->
  st_dataframe env (head 10 d) = Ret tt ->
  clicked u = true ->
  report_html env d = Ret html ->
  pdfkit_from_string env html false = Ret b ->
  b <> "" ->
  trace (generate_report env (selected_builtin u) d) =
    [St_spinner "Creating the profile…";
     Lib_ProfileReport (profile_of d);
     Lib_st_profile_report (profile_of d);
     Lib_to_html (profile_of d);
     St_columns 2;
     html_button (selected_builtin u) html;
     Lib_pdfkit_from_string html false;
     pdf_button (selected_builtin u) b] /\
  In (html_button (selected_builtin u) html) (trace (script env u)) /\
  In (pdf_button (selected_builtin u) b) (trace (script env u)) /\
  existsb is_warning (trace (script env u)) = false /\
  shell_state (script env u) = Some (Profiled d).
Proof.
  intros Hl He Hs Hc Hh Hp Hb. apply String.eqb_neq in Hb.
  assert (Hg : trace (generate_report env (selected_builtin u) d) =
    [St_spinner "Creating the profile…";
     Lib_ProfileReport (profile_of d);
     Lib_st_profile_report (profile_of d);
     Lib_to_html (profile_of d);
     St_columns 2;
     html_button (selected_builtin u) html;
     Lib_pdfkit_from_string html false;
     pdf_button (selected_builtin u) b]).
  { rewrite generate_report_trace, Hh, Hp, Hb,
      (profiling_calls_complete _ _ _ Hh). reflexivity. }
  assert (Hprev : trace (preview env (selected_builtin u) (Some d) (clicked u))
                  = St_subheader "📋 Data Preview" ::
                    St_dataframe (head 10 d) true ::
                    St_button "Generate Profiling Report" ::
                    trace (generate_report env (selected_builtin u) d)).
  { rewrite (preview_active _ _ _ _ He Hs), Hc. reflexivity. }
  assert (Hv : value (script env u) = Ret (Some d)).
  { apply run_ends with (1 := Hl).
    rewrite preview_value, He, Hs, Hc, generate_report_value, Hh, Hp.
    reflexivity. }
  split; [exact Hg|]. rewrite Hg in Hprev.
  split; [apply (in_script_from_preview env u (Some d) _ Hl); rewrite Hprev;
          do 8 right; left; reflexivity|].
  split; [apply (in_script_from_preview env u (Some d) _ Hl); rewrite Hprev;
          do 10 right; left; reflexivity|].
  split.
  - rewrite existsb_script by (intros []; cbn; congruence).
    rewrite Hl, Hprev. reflexivity.
  - unfold shell_state. rewrite Hv, He.
    rewrite (existsb_script _ _ _ setup_not_html_export), Hl, Hprev.
    reflexivity.
Qed.

Lemma report_success_offers_both_exports_witness :
  value (load_data Demo.env_pdf Demo.u_both_report) = Ret (Some Demo.small_df) /\
  st_dataframe Demo.env_pdf (head 10 Demo.small_df) = Ret tt /\
  report_html Demo.env_pdf Demo.small_df = Ret Demo.html_doc /\
  pdfkit_from_string Demo.env_pdf Demo.html_doc false
    = Ret ("%PDF-1.4 " ++ Demo.html_doc) /\
  In (pdf_button "iris" ("%PDF-1.4 " ++ Demo.html_doc))
     (trace (script Demo.env_pdf Demo.u_both_report)) /\
  shell_state (script Demo.env_pdf Demo.u_both_report)
    = Some (Profiled Demo.small_df).
Proof.
  split; [reflexivity|]. split; [reflexivity|]. split; [reflexivity|].
  split; [reflexivity|].
  assert (Hb : "%PDF-1.4 " ++ Demo.html_doc <> "") by (cbn; discriminate).
  destruct (report_success_offers_both_exports Demo.env_pdf Demo.u_both_report
              Demo.small_df Demo.html_doc ("%PDF-1.4 " ++ Demo.html_doc)
              eq_refl eq_refl eq_refl eq_refl eq_refl eq_refl Hb)
    as (_ & _ & Hpdf & _ & Hs).
  split; assumption.
Defined.

(** X15: every download button of a run is named after the value of the
    select box, [<value>_profiling.html] with [text/html] or
    [<value>_profiling.pdf] with [application/pdf], also when the profiled
    data is an upload that replaced the selected sample. *)
Theorem export_names_follow_select_box
    (env : Env) (u : UserInput) (label data file_name mime : string) :
  In (St_download_button label data file_name mime) (trace (script env u)) ->
  (label = "📥 Download HTML" /\ mime = "text/html" /\
   file_name = selected_builtin u ++ "_profiling.html") \/
  (label = "📥 Download PDF" /\ mime = "application/pdf" /\
   file_name = selected_builtin u ++ "_profiling.pdf").
Proof.
  intros Hin. apply download_buttons_of_run in Hin.
  unfold html_button, pdf_button in Hin. rewrite !fallback_label_unused in Hin.
  destruct Hin as [H|H]; injection H as -> -> ->; [left|right];
    repeat split.
Qed.

Lemma export_names_follow_select_box_witness :
  uploaded_file Demo.u_both_report = Some Demo.good_csv /\
  active_df (script Demo.env_pdf Demo.u_both_report) = Some Demo.small_df /\
  In (St_download_button "📥 Download HTML" Demo.html_doc
        "iris_profiling.html" "text/html")
     (trace (script Demo.env_pdf Demo.u_both_report)) /\
  (("📥 Download HTML" = "📥 Download HTML" /\ "text/html" = "text/html" /\
    "iris_profiling.html" = selected_builtin Demo.u_both_report ++ "_profiling.html") \/
   ("📥 Download HTML" = "📥 Download PDF" /\ "text/html" = "application/pdf" /\
    "iris_profiling.html" = selected_builtin Demo.u_both_report ++ "_profiling.pdf")).
Proof.
  split; [reflexivity|]. split; [reflexivity|].
  assert (Hin : In (St_download_button "📥 Download HTML" Demo.html_doc
                      "iris_profiling.html" "text/html")
                   (trace (script Demo.env_pdf Demo.u_both_report))).
  { cbn. do 19 right. left. reflexivity. }
  split; [exact Hin|].
  exact (export_names_follow_select_box Demo.env_pdf Demo.u_both_report
           _ _ _ _ Hin).
Defined.

(** X16: the errors on the page are exactly the caught failures of the
    run: an [st.error] text is shown if and only if it is the built-in
    message for the [Exception] that [get_data] raised, or the upload
    message for the [Exception] that pandas raised after the built-in
    block returned, or the profiling message for the exception that
    stopped the requested report. *)
Theorem errors_shown_are_failures (env : Env) (u : UserInput) (s : string) :
  In (St_error s) (trace (script env u)) <->
  (exists e, selected_builtin u <> none_option /\
             get_data env (selected_builtin u) false = Raise e /\
             isinstance_Exception e = true /\
             s = builtin_error e) \/
  (exists f e df0,
     value (load_builtin env (selected_builtin u) None) = Ret df0 /\
     uploaded_file u = Some f /\ pandas_read env f = Raise e /\
     isinstance_Exception e = true /\
     s = upload_error e) \/
  (exists d e, active_df (script env u) = Some d /\ empty d = false /\
               clicked u = true /\ report_html env d = Raise e /\
               s = profiling_error e).
Proof.
  split.
  - intros Hin. rewrite trace_script in Hin.
    apply in_app_or in Hin as [H|H].
    { cbn in H. repeat (destruct H as [H|H]; [discriminate|]). contradiction. }
    apply in_app_or in H as [H|H].
    + rewrite trace_load_data in H. apply in_app_or in H as [H|H].
      * left. rewrite load_builtin_run in H.
        destruct (String.eqb (selected_builtin u) none_option) eqn:Es;
          [contradiction|].
        apply String.eqb_neq in Es.
        destruct (get_data env (selected_builtin u) false) as [d|[m|m]];
          repeat (destruct H as [H|H]; [try discriminate|]);
          try contradiction.
        injection H as <-. exists (Exception m). repeat split. exact Es.
      * right. left.
        destruct (value (load_builtin env (selected_builtin u) None))
          as [df0|e0]; [|contradiction].
        rewrite load_upload_run in H.
        destruct (uploaded_file u) as [f|]; [|contradiction].
        unfold pandas_call in H.
        destruct (pandas_read env f) as [d|[m|m]] eqn:Hp.
        -- destruct (endswith (name f) ".csv"), (empty d);
             repeat (destruct H as [H|H]; [discriminate|]); contradiction.
        -- exists f, (Exception m), df0.
           destruct (endswith (name f) ".csv");
             destruct H as [H|[H|[]]]; try discriminate;
             injection H as <-; repeat split; exact Hp.
        -- destruct (endswith (name f) ".csv");
             destruct H as [H|[]]; discriminate.
    + right. right.
      destruct (value (load_data env u)) as [df|e0] eqn:Hl; [|contradiction].
      rewrite preview_trace in H.
      destruct df as [d|]; [|destruct H as [H|[]]; discriminate].
      destruct (empty d) eqn:He; [destruct H as [H|[]]; discriminate|].
      destruct H as [H|[H|H]]; try discriminate.
      destruct (st_dataframe env (head 10 d)) as [[]|e0] eqn:Hs;
        [|contradiction].
      destruct H as [H|H]; [discriminate|].
      destruct (clicked u) eqn:Hc; [|contradiction].
      rewrite generate_report_trace in H.
      destruct H as [H|H]; [discriminate|].
      apply in_app_or in H as [H|H];
        [apply profiling_calls_spec in H; discriminate|].
      destruct (report_html env d) as [html|[m|m]] eqn:Hr.
      * destruct H as [H|[H|[H|H]]]; try discriminate.
        destruct (pdfkit_from_string env html false) as [b|[m|m]];
          [destruct (String.eqb b "")| |];
          repeat (destruct H as [H|H]; [discriminate|]); contradiction.
      * destruct H as [H|[]]. injection H as <-.
        exists d, (Exception m). repeat split; try assumption.
        unfold active_df. rewrite (run_ends _ _ _ Hl); [reflexivity|].
        rewrite preview_value, He, Hs, Hc, generate_report_value, Hr.
        reflexivity.
      * contradiction.
  - intros [(e & Hs & Hg & Hi & ->)
           |[(f & e & df0 & Hb & Hf & Hp & Hi & ->)
            |(d & e & Hd & He & Hc & Hr & ->)]].
    + apply String.eqb_neq in Hs. apply in_script_load.
      rewrite trace_load_data. apply in_or_app. left.
      rewrite load_builtin_run, Hs, Hg, Hi. right. left. reflexivity.
    + apply in_script_load. rewrite trace_load_data, Hb.
      apply in_or_app. right.
      rewrite Hf, load_upload_run, Hp, Hi. right. left. reflexivity.
    + destruct (run_ended_preview env u d Hd He) as (Hl & Hs & Hg).
      specialize (Hg Hc). rewrite generate_report_value, Hr in Hg.
      destruct (isinstance_Exception e) eqn:Hi; [|discriminate].
      apply (report_block_in_script env u d); try assumption.
      rewrite generate_report_trace, Hr, Hi. right. apply in_or_app. right.
      left. reflexivity.
Qed.

Lemma errors_shown_are_failures_witness :
  In (St_error "Profiling failed: DataFrame has no usable column")
     (trace (script Demo.env_no_report Demo.u_iris_report)) /\
  report_html Demo.env_no_report Demo.iris_df =
    Raise (Exception "DataFrame has no usable column").
Proof.
  split; [|reflexivity].
  apply (proj2 (errors_shown_are_failures Demo.env_no_report
                  Demo.u_iris_report
                  "Profiling failed: DataFrame has no usable column")).
  right. right.
  exists Demo.iris_df, (Exception "DataFrame has no usable column").
  repeat split.
Defined.

(** X17: the only warning a run can show is the PDF one: an [st.warning]
    text is on the page if and only if the report's HTML was obtained,
    pdfkit raised on it, and the text is the PDF message for that
    exception. *)
Theorem warning_shown_is_pdf_failure (env : Env) (u : UserInput) (s : string) :
  In (St_warning s) (trace (script env u)) <->
  exists d html e,
    active_df (script env u) = Some d /\ empty d = false /\ clicked u = true /\
    report_html env d = Ret html /\
    pdfkit_from_string env html false = Raise e /\
    s = pdf_warning e.
Proof.
  split.
  - intros Hin.
    apply in_report_block in Hin as (d & Hl & He & Hs & Hc & Hin);
      try reflexivity.
    exists d. rewrite generate_report_trace in Hin.
    destruct Hin as [Hin|Hin]; [discriminate|].
    apply in_app_or in Hin as [Hin|Hin];
      [apply profiling_calls_spec in Hin; discriminate|].
    destruct (report_html env d) as [html|[m|m]] eqn:Hr;
      [|destruct Hin as [Hin|[]]; discriminate|contradiction].
    exists html.
    destruct Hin as [Hin|[Hin|[Hin|Hin]]]; try discriminate.
    destruct (pdfkit_from_string env html false) as [b|[m|m]] eqn:Hp.
    + destruct (String.eqb b "");
        repeat (destruct Hin as [Hin|Hin]; [discriminate|]); contradiction.
    + destruct Hin as [Hin|[]]. injection Hin as <-.
      exists (Exception m). repeat split; try assumption.
      unfold active_df. rewrite (run_ends _ _ _ Hl); [reflexivity|].
      rewrite preview_value, He, Hs, Hc, generate_report_value, Hr, Hp.
      reflexivity.
    + contradiction.
  - intros (d & html & e & Hd & He & Hc & Hr & Hp & ->).
    destruct (run_ended_preview env u d Hd He) as (Hl & Hs & Hg).
    specialize (Hg Hc). rewrite generate_report_value, Hr, Hp in Hg.
    destruct (isinstance_Exception e) eqn:Hi; [|discriminate].
    apply (report_block_in_script env u d); try assumption.
    rewrite generate_report_trace, Hr, Hp, Hi. right. apply in_or_app. right.
    do 3 right. left. reflexivity.
Qed.

Lemma warning_shown_is_pdf_failure_witness :
  In (St_warning "PDF conversion failed: No wkhtmltopdf executable found")
     (trace (script Demo.env Demo.u_iris_report)) /\
  exists d html e,
    active_df (script Demo.env Demo.u_iris_report) = Some d /\
    empty d = false /\ clicked Demo.u_iris_report = true /\
    report_html Demo.env d = Ret html /\
    pdfkit_from_string Demo.env html false = Raise e /\
    "PDF conversion failed: No wkhtmltopdf executable found" = pdf_warning e.
Proof.
  assert (Hin : In (St_warning "PDF conversion failed: No wkhtmltopdf executable found")
                   (trace (script Demo.env Demo.u_iris_report))).
  { cbn. do 19 right. left. reflexivity. }
  split; [exact Hin|].
  exact (proj1 (warning_shown_is_pdf_failure Demo.env Demo.u_iris_report _) Hin).
Defined.
